(** * Predicate: a subject / relation / object assertion

    Shallow embedding of [definitions/math/predicate.py]: the [Predicate]
    dataclass, its validation in [__post_init__], the record conversion
    ([to_dict] / [from_dict]), the negation classifier, exact and fuzzy
    matching, and the equality / hash protocol.

    Conventions of the embedding.
    - A Python [str] is a Rocq [string]; a character of the string is read as
      the code point of the same number (U+0000 .. U+00FF).  [str.lower],
      [str.strip] and [str.split] are embedded with their behaviour on that
      range.
    - A Python exception is a value of [exn]; a call that may raise returns
      [result].
    - Fields carry the types of the dataclass annotations.  The [obj] field
      is annotated [Any]; the embedding lets it range over [None], booleans,
      integers and strings ([atom]).
    - A [float] is a rational or one of the three special values; the only
      float operations of the module are comparisons and one division of two
      small integers. *)

From Stdlib Require Import ZArith QArith Ascii String List Bool Lia DecimalString.
From stdpp Require Import gmap strings list fin_maps.

Open Scope string_scope.

(** * The embedding

    ** Python string primitives *)

Module PyStr.

(** [str.isspace] on one character: U+0009..U+000D, U+001C..U+0020,
    U+0085 and U+00A0. *)
Definition is_space (c : ascii) : bool :=
  let n := N_of_ascii c in
  ((9 <=? n) && (n <=? 13) || (28 <=? n) && (n <=? 32)
   || (n =? 133) || (n =? 160))%N.

(** Upper-case letters: A..Z, and U+00C0..U+00DE without U+00D7. *)
Definition is_upper (c : ascii) : bool :=
  let n := N_of_ascii c in
  ((65 <=? n) && (n <=? 90)
   || (192 <=? n) && (n <=? 222) && negb (n =? 215))%N.

Definition lower_char (c : ascii) : ascii :=
  if is_upper c then ascii_of_N (N_of_ascii c + 32) else c.

(** [s.lower()] *)
Fixpoint lower (s : string) : string :=
  match s with
  | EmptyString => EmptyString
  | String c s' => String (lower_char c) (lower s')
  end.

(** [s.lstrip()] *)
Fixpoint lstrip (s : string) : string :=
  match s with
  | EmptyString => EmptyString
  | String c s' => if is_space c then lstrip s' else s
  end.

(** [s.rstrip()] *)
Fixpoint rstrip (s : string) : string :=
  match s with
  | EmptyString => EmptyString
  | String c s' =>
      match rstrip s' with
      | EmptyString => if is_space c then EmptyString else String c EmptyString
      | r => String c r
      end
  end.

(** [s.strip()] *)
Definition strip (s : string) : string := lstrip (rstrip s).

(** [s.replace(a, b)] for one-character [a] and [b]. *)
Fixpoint replace (a b : ascii) (s : string) : string :=
  match s with
  | EmptyString => EmptyString
  | String c s' => String (if Ascii.eqb c a then b else c) (replace a b s')
  end.

(** [s.split()] without a separator: the maximal runs of characters that
    are not whitespace.  [w] is the word being read, if any. *)
Fixpoint split_from (w : option string) (s : string) : list string :=
  match s with
  | EmptyString => match w with Some x => [x] | None => [] end
  | String c s' =>
      if is_space c then
        match w with
        | Some x => x :: split_from None s'
        | None => split_from None s'
        end
      else
        split_from (Some (match w with
                          | Some x => x ++ String c EmptyString
                          | None => String c EmptyString
                          end)) s'
  end.

Definition split (s : string) : list string := split_from None s.

(** [sep.join(l)] *)
Definition join (sep : string) (l : list string) : string :=
  String.concat sep l.

(** [p.startswith] as [s.startswith(p)] *)
Definition startswith (s p : string) : bool := String.prefix p s.

(** [u in s] for strings: [u] occurs in [s] at some offset. *)
Fixpoint contains (u s : string) : bool :=
  String.prefix u s
  || match s with
     | EmptyString => false
     | String _ s' => contains u s'
     end.

(** [str(n)] for an integer. *)
Definition of_Z (z : Z) : string := NilZero.string_of_int (Z.to_int z).

End PyStr.

(** ** Values, floats and exceptions *)

(** [class PredicateType(Enum)] *)
Inductive PredicateType : Type :=
| ASSERTION | PERMISSION | OBLIGATION | RESTRICTION | RELATION.

(** The [value] attribute of a member. *)
Definition PredicateType_value (t : PredicateType) : string :=
  match t with
  | ASSERTION => "assertion"
  | PERMISSION => "permission"
  | OBLIGATION => "obligation"
  | RESTRICTION => "restriction"
  | RELATION => "relation"
  end.

Definition PredicateType_members : list PredicateType :=
  [ASSERTION; PERMISSION; OBLIGATION; RESTRICTION; RELATION].

(** A Python [float]. *)
Inductive pyfloat : Type :=
| Finite (q : Q)
| PosInf
| NegInf
| NaN.

(** [a <= b] on floats; an [int] operand is the [Finite] of its value. *)
Definition float_le (a b : pyfloat) : bool :=
  match a, b with
  | NaN, _ | _, NaN => false
  | NegInf, _ => true
  | _, PosInf => true
  | Finite x, Finite y => Qle_bool x y
  | _, _ => false
  end.

(** The objects an [obj] field or a metadata entry holds. *)
Inductive atom : Type :=
| ANone
| ABool (b : bool)
| AInt (z : Z)
| AStr (s : string).

(** The objects a record (a [dict] with string keys) holds. *)
Inductive value : Type :=
| VAtom (a : atom)
| VFloat (f : pyfloat)
| VEnum (t : PredicateType)
| VDict (d : gmap string atom).

(** Messages are kept as the pieces of the f-string that builds them:
    literal text and interpolated objects. *)
Inductive segment : Type :=
| Lit (s : string)
| Val (v : value).

Definition message : Type := list segment.

(** Exceptions.  [IllTyped] is not a Python exception: it marks a record
    entry whose dynamic type is not the one the dataclass annotates for the
    field it is passed to; such records are outside the embedding. *)
Inductive exn : Type :=
| ValueError (m : message)
| KeyError (k : string)
| TypeError (m : message)
| IllTyped (field : string).

Inductive result (A : Type) : Type :=
| Ok (a : A)
| Raise (e : exn).

Arguments Ok {A} a.
Arguments Raise {A} e.

#[global] Instance result_bind : MBind result :=
  fun A B (k : A -> result B) (r : result A) =>
    match r with
    | Ok a => k a
    | Raise e => Raise e
    end.

(** [str(o)] *)
Definition str (o : atom) : string :=
  match o with
  | ANone => "None"
  | ABool true => "True"
  | ABool false => "False"
  | AInt z => PyStr.of_Z z
  | AStr s => s
  end.

(** The integer a number denotes ([True] is 1, [False] is 0). *)
Definition as_int (o : atom) : option Z :=
  match o with
  | ABool b => Some (if b then 1 else 0)%Z
  | AInt z => Some z
  | ANone | AStr _ => None
  end.

(** [a == b] on objects: numbers by the integer they denote, strings by
    their characters, [None] only with itself. *)
Definition atom_eq (a b : atom) : bool :=
  match a, b with
  | ANone, ANone => true
  | AStr s, AStr t => String.eqb s t
  | ANone, _ | _, ANone | AStr _, _ | _, AStr _ => false
  | _, _ =>
      match as_int a, as_int b with
      | Some x, Some y => (x =? y)%Z
      | _, _ => false
      end
  end.

(** Truth value of an object ([bool(v)]). *)
Definition truthy (v : value) : bool :=
  match v with
  | VAtom ANone => false
  | VAtom (ABool b) => b
  | VAtom (AInt z) => negb (z =? 0)%Z
  | VAtom (AStr s) => negb (String.eqb s EmptyString)
  | VFloat (Finite q) => negb (Qeq_bool q 0)
  | VFloat _ => true
  | VEnum _ => true
  | VDict d => negb (bool_decide (d = ∅))
  end.

(** ** The dataclass *)

Record Predicate : Type := mkPredicate {
  subj : string;
  pred : string;
  obj : atom;
  confidence : pyfloat;
  source : option string;
  predicate_type : option PredicateType;
  metadata : gmap string atom
}.

Definition empty_field_message : message :=
  [Lit "Subject, Predicate and Object must be non-empty"].

Definition confidence_message (c : pyfloat) : message :=
  [Lit "Confidence score must be in range [0, 1], got "; Val (VFloat c)].

(** [__post_init__]: trims the textual fields of the instance, then checks
    them.  The instance is returned only when no check raises. *)
Definition __post_init__ (self : Predicate) : result Predicate :=
  let subj' := PyStr.strip (subj self) in
  let pred' := PyStr.strip (pred self) in
  let obj' := match obj self with
              | AStr s => AStr (PyStr.strip s)
              | o => o
              end in
  if String.eqb subj' EmptyString || String.eqb pred' EmptyString
     || match obj' with ANone => true | _ => false end
  then Raise (ValueError empty_field_message)
  else if negb (float_le (Finite 0) (confidence self)
                && float_le (confidence self) (Finite 1))
  then Raise (ValueError (confidence_message (confidence self)))
  else Ok {| subj := subj'; pred := pred'; obj := obj';
             confidence := confidence self; source := source self;
             predicate_type := predicate_type self;
             metadata := metadata self |}.

(** [Predicate(subj, pred, obj, confidence, source, predicate_type,
    metadata)]: the generated [__init__] stores the arguments and runs
    [__post_init__]. *)
Definition Predicate_init (s r : string) (o : atom) (c : pyfloat)
    (src : option string) (t : option PredicateType)
    (md : gmap string atom) : result Predicate :=
  __post_init__ (mkPredicate s r o c src t md).

(** The call with the defaults of the dataclass: [confidence = 1.0],
    [source = None], [predicate_type = None], [metadata = {}]. *)
Definition Predicate3 (s r : string) (o : atom) : result Predicate :=
  Predicate_init s r o (Finite 1) None None ∅.

(** A valid Predicate is one that a constructor call returns. *)
Definition valid (p : Predicate) : Prop :=
  exists s r o c src t md, Predicate_init s r o c src t md = Ok p.

(** [to_triple] *)
Definition to_triple (self : Predicate) : string * string * atom :=
  (subj self, pred self, obj self).

(** [==] on two triples: componentwise [==]. *)
Definition triple_eq (x y : string * string * atom) : bool :=
  match x, y with
  | (s1, r1, o1), (s2, r2, o2) =>
      String.eqb s1 s2 && String.eqb r1 r2 && atom_eq o1 o2
  end.

(** ** Record conversion *)

(** [to_dict] *)
Definition to_dict (self : Predicate) : gmap string value :=
  <["subject" := VAtom (AStr (subj self))]>
  (<["predicate" := VAtom (AStr (pred self))]>
  (<["object" := VAtom (obj self)]>
  (<["confidence" := VFloat (confidence self)]>
  (<["source" := match source self with
                 | Some s => VAtom (AStr s)
                 | None => VAtom ANone
                 end]>
  (<["type" := match predicate_type self with
               | Some t => VEnum t      (* a member is truthy *)
               | None => VAtom ANone
               end]>
  (<["metadata" := VDict (metadata self)]> ∅)))))).

(** The error of a lookup by value that finds no member. *)
Definition not_a_member (v : value) : exn :=
  ValueError [Val v; Lit " is not a valid PredicateType"].

(** [PredicateType(v)]: the member itself, or the member whose value is
    [v]; [ValueError] when there is none. *)
Definition PredicateType_call (v : value) : result PredicateType :=
  match v with
  | VEnum t => Ok t
  | VAtom (AStr s) =>
      match List.find (fun t => String.eqb (PredicateType_value t) s)
                      PredicateType_members with
      | Some t => Ok t
      | None => Raise (not_a_member v)
      end
  | _ => Raise (not_a_member v)
  end.

(** [data[k]] *)
Definition getitem (data : gmap string value) (k : string) : result value :=
  match data !! k with
  | Some v => Ok v
  | None => Raise (KeyError k)
  end.

(** [data.get(k, d)] *)
Definition get (data : gmap string value) (k : string) (d : value) : value :=
  match data !! k with
  | Some v => v
  | None => d
  end.

(** Passing an object to a parameter of the annotated type. *)
Definition as_str (field : string) (v : value) : result string :=
  match v with VAtom (AStr s) => Ok s | _ => Raise (IllTyped field) end.

Definition as_atom (field : string) (v : value) : result atom :=
  match v with VAtom a => Ok a | _ => Raise (IllTyped field) end.

Definition as_float (field : string) (v : value) : result pyfloat :=
  match v with
  | VFloat f => Ok f
  | VAtom (AInt z) => Ok (Finite (inject_Z z))   (* an int for a float *)
  | _ => Raise (IllTyped field)
  end.

Definition as_optional_str (field : string) (v : value)
  : result (option string) :=
  match v with
  | VAtom ANone => Ok None
  | VAtom (AStr s) => Ok (Some s)
  | _ => Raise (IllTyped field)
  end.

Definition as_dict (field : string) (v : value)
  : result (gmap string atom) :=
  match v with VDict d => Ok d | _ => Raise (IllTyped field) end.

(** [from_dict].  Python evaluates the conversion of the type tag first,
    then the keyword arguments from left to right, then the call. *)
Definition from_dict (data : gmap string value) : result Predicate :=
  pred_type ← PredicateType_call
                (if truthy (get data "type" (VAtom ANone))
                 then get data "type" (VAtom ANone)   (* data["type"] *)
                 else VAtom ANone);
  subj_v ← getitem data "subject";
  pred_v ← getitem data "predicate";
  obj_v ← getitem data "obj";
  let confidence_v := get data "confidence" (VFloat (Finite 1)) in
  let source_v := get data "source" (VAtom ANone) in
  let metadata_v := get data "metadata" (VDict ∅) in
  s ← as_str "subj" subj_v;
  r ← as_str "pred" pred_v;
  o ← as_atom "obj" obj_v;
  c ← as_float "confidence" confidence_v;
  src ← as_optional_str "source" source_v;
  md ← as_dict "metadata" metadata_v;
  Predicate_init s r o c src (Some pred_type) md.

(** ** Negation, matching, equality and hashing *)

Definition negation_predicates : gset string :=
  {[ "cannot"; "shall_not"; "should_not"; "must_not"; "is_not"; "are_not";
     "does_not"; "do_not"; "forbids"; "restricts"; "was_not"; "were_not";
     "ought_not"; "might_not" ]}.

(** [is_negation] *)
Definition is_negation (self : Predicate) : bool :=
  bool_decide (pred self ∈ negation_predicates)
  || PyStr.startswith (pred self) "not_".

(** The default of the [threshold] parameter, [0.5]. *)
Definition default_threshold : pyfloat := Finite (1 # 2).

(** [_fuzzy_match].  The quotient [intersection / union] of two lengths is
    taken exactly: the float that Python computes is the nearest one to
    it, and lies on the same side of [0.5] for every union of fewer than
    2^53 words. *)
Definition _fuzzy_match (s1 s2 : string) (threshold : pyfloat) : bool :=
  let s1 := PyStr.strip (PyStr.lower s1) in
  let s2 := PyStr.strip (PyStr.lower s2) in
  let s1 := PyStr.join " " (PyStr.split (PyStr.replace "_" " " s1)) in
  let s2 := PyStr.join " " (PyStr.split (PyStr.replace "_" " " s2)) in
  if String.eqb s1 s2 then true
  else if PyStr.contains s1 s2 || PyStr.contains s2 s1 then true
  else
    let words1 : gset string := list_to_set (PyStr.split s1) in
    let words2 : gset string := list_to_set (PyStr.split s2) in
    if bool_decide (words1 = ∅) || bool_decide (words2 = ∅) then false
    else
      let intersection := size (words1 ∩ words2) in
      let union := size (words1 ∪ words2) in
      if Nat.eqb union 0 then false
      else
        let similarity :=
          Finite (inject_Z (Z.of_nat intersection)
                  / inject_Z (Z.of_nat union)) in
        float_le threshold similarity.

(** [matches] *)
Definition matches (self other : Predicate) (fuzzy : bool) : bool :=
  if fuzzy then
    _fuzzy_match (subj self) (subj other) default_threshold
    && String.eqb (pred self) (pred other)
    && _fuzzy_match (str (obj self)) (str (obj other)) default_threshold
  else triple_eq (to_triple self) (to_triple other).

(** What the right operand of [==] may be. *)
Inductive pyobject : Type :=
| OPredicate (p : Predicate)
| OValue (v : value).

(** [__eq__] *)
Definition __eq__ (self : Predicate) (other : pyobject) : bool :=
  match other with
  | OPredicate q => triple_eq (to_triple self) (to_triple q)
  | OValue _ => false
  end.

Section Hashing.

(** The hash of one string; CPython salts it per process. *)
Variable str_hash : string -> Z.

(** The builtin [hash], applied to the positional arguments [args]:
    it takes exactly one. *)
Definition builtin_hash (args : list string) : result Z :=
  match args with
  | [x] => Ok (str_hash x)
  | _ =>
      Raise (TypeError
               [Lit "hash() takes exactly one argument ("
                ; Val (VAtom (AInt (Z.of_nat (length args))))
                ; Lit " given)"])
  end.

(** [__hash__] *)
Definition __hash__ (self : Predicate) : result Z :=
  builtin_hash [subj self; pred self; str (obj self)].

End Hashing.

(** ** The text of an instance *)

(** [a < b] on floats. *)
Definition float_lt (a b : pyfloat) : bool :=
  match a, b with
  | NaN, _ | _, NaN => false
  | Finite x, Finite y => negb (Qle_bool y x)
  | NegInf, NegInf => false
  | NegInf, _ => true
  | _, NegInf => false
  | PosInf, _ => false
  | Finite _, PosInf => true
  end.

Section Repr.

(** The text of a float under the format [.2f]. *)
Variable format_2f : pyfloat -> string.

(** [__repr__] *)
Definition __repr__ (self : Predicate) : string :=
  let conf_str :=
    if float_lt (confidence self) (Finite 1)
    then ", conf=" ++ format_2f (confidence self)
    else EmptyString in
  "Predicate(" ++ subj self ++ ", " ++ pred self ++ ", "
  ++ str (obj self) ++ conf_str ++ ")".

End Repr.

(** ** The instances of the module's [__main__] block *)

Definition p1 : result Predicate :=
  Predicate3 "MIT License" "allows" (AStr "commercial_use").
Definition p3 : result Predicate :=
  Predicate3 "GPL" "cannot" (AStr "close_source").
Definition p4 : result Predicate :=
  Predicate3 "MIT License" "allows" (AStr "commercial use").
Definition p5 : result Predicate :=
  Predicate3 "MIT" "allows" (AStr "commercial_use").

(** * The vocabulary of the specification *)

(** Membership of the closed interval [0, 1]. *)
Definition in_unit_interval (c : pyfloat) : Prop :=
  exists q, c = Finite q /\ (0 <= q)%Q /\ (q <= 1)%Q.

(** The state every instance is meant to be in. *)
Record well_formed (p : Predicate) : Prop := {
  wf_subj : subj p <> EmptyString;
  wf_pred : pred p <> EmptyString;
  wf_obj : obj p <> ANone;
  wf_confidence : in_unit_interval (confidence p);
  wf_subj_trimmed : PyStr.strip (subj p) = subj p;
  wf_pred_trimmed : PyStr.strip (pred p) = pred p;
  wf_obj_trimmed : forall s, obj p = AStr s -> PyStr.strip s = s
}.

(** What [__post_init__] stores in [obj]. *)
Definition trim_obj (o : atom) : atom :=
  match o with
  | AStr s => AStr (PyStr.strip s)
  | _ => o
  end.

(** The negative-relation tokens, as the specification lists them. *)
Definition negative_relation_tokens : list string :=
  [ "cannot"; "shall_not"; "should_not"; "must_not"; "is_not"; "are_not";
    "does_not"; "do_not"; "forbids"; "restricts"; "was_not"; "were_not";
    "ought_not"; "might_not" ].

(** Two objects have the same value: both are [None], both are the same
    string, or both are numbers denoting the same integer. *)
Definition same_value (a b : atom) : Prop :=
  (a = ANone /\ b = ANone)
  \/ (exists s, a = AStr s /\ b = AStr s)
  \/ (exists z, as_int a = Some z /\ as_int b = Some z).

(** Two instances carry the same triple. *)
Definition identical_triples (a b : Predicate) : Prop :=
  subj a = subj b /\ pred a = pred b /\ same_value (obj a) (obj b).

(** A string that begins with a character that is not whitespace. *)
Definition starts_nonspace (x : string) : Prop :=
  match x with
  | String c _ => PyStr.is_space c = false
  | EmptyString => False
  end.

(** The normal form the two operands are brought to: lower case, trimmed,
    underscores turned into spaces, and the words that remain joined by
    single spaces (so every run of whitespace, also one left at an end by
    an underscore, collapses). *)
Definition normalize (s : string) : string :=
  PyStr.join " "
    (PyStr.split (PyStr.replace "_" " " (PyStr.strip (PyStr.lower s)))).

(** [u] occurs in [s]. *)
Definition is_substring (u s : string) : Prop :=
  exists pre post, s = pre ++ u ++ post.

(** The set of words of a string. *)
Definition token_set (s : string) : gset string :=
  list_to_set (PyStr.split s).

(** Shared words over all words. *)
Definition jaccard (A B : gset string) : Q :=
  inject_Z (Z.of_nat (size (A ∩ B))) / inject_Z (Z.of_nat (size (A ∪ B))).

(** Approximate equality of two strings at threshold [t]. *)
Definition approx_equal (t : Q) (s1 s2 : string) : Prop :=
  let n1 := normalize s1 in
  let n2 := normalize s2 in
  n1 = n2
  \/ is_substring n1 n2
  \/ is_substring n2 n1
  \/ (token_set n1 <> ∅ /\ token_set n2 <> ∅
      /\ (t <= jaccard (token_set n1) (token_set n2))%Q).

(** The error of the builtin [hash] called with three arguments. *)
Definition hash_arity_error : exn :=
  TypeError [Lit "hash() takes exactly one argument (";
             Val (VAtom (AInt 3)); Lit " given)"].

(** A record with the three required keys of the specification. *)
Definition record_spec_keys : gmap string value :=
  <["subject" := VAtom (AStr "s")]>
  (<["predicate" := VAtom (AStr "r")]>
  (<["object" := VAtom (AStr "o")]> ∅)).

(** The same record with the object under the key [obj]. *)
Definition record_obj_key : gmap string value :=
  <["subject" := VAtom (AStr "s")]>
  (<["predicate" := VAtom (AStr "r")]>
  (<["obj" := VAtom (AStr "o")]> ∅)).

(** * Further vocabulary *)

(** A string that ends with a character that is not whitespace. *)
Fixpoint ends_nonspace (x : string) : Prop :=
  match x with
  | EmptyString => False
  | String c EmptyString => PyStr.is_space c = false
  | String _ y => ends_nonspace y
  end.

(** The object [from_dict] converts to a tag: [data["type"]] when it is
    there and truthy, [None] otherwise. *)
Definition tag_of (data : gmap string value) : value :=
  if truthy (get data "type" (VAtom ANone))
  then get data "type" (VAtom ANone)
  else VAtom ANone.

(** The record of [to_dict] with the object also under the key [obj]. *)
Definition with_obj_key (p : Predicate) : gmap string value :=
  <["obj" := VAtom (obj p)]> (to_dict p).

(** Every character of the string satisfies [P]. *)
Fixpoint all_chars (P : ascii -> Prop) (s : string) : Prop :=
  match s with
  | EmptyString => True
  | String c s' => P c /\ all_chars P s'
  end.

(** A character that [lower] and the replacement of underscores leave
    alone. *)
Definition plain_char (c : ascii) : Prop :=
  PyStr.lower_char c = c /\ Ascii.eqb c "_" = false.

(** A word: not empty, without whitespace. *)
Definition is_word (w : string) : Prop :=
  w <> EmptyString /\ all_chars (fun c => PyStr.is_space c = false) w.

(** What [split_from] emits on reading the character [c], and the word it
    goes on with. *)
Definition emitted (w : option string) (c : ascii) : list string :=
  if PyStr.is_space c then match w with Some x => [x] | None => [] end
  else [].

Definition continued (w : option string) (c : ascii) : option string :=
  if PyStr.is_space c then None
  else Some (match w with
             | Some x => x ++ String c EmptyString
             | None => String c EmptyString
             end).

(** * Properties *)

(** ** The primitives on examples *)

Example strip_ex : PyStr.strip "  MIT License	" = "MIT License".
Proof. reflexivity. Qed.

Example split_ex : PyStr.split " commercial   use " = ["commercial"; "use"].
Proof. reflexivity. Qed.

Example lower_ex : PyStr.lower "MIT_License 2" = "mit_license 2".
Proof. reflexivity. Qed.

Example contains_ex :
  PyStr.contains "mit" "mit license" = true
  /\ PyStr.contains EmptyString "abc" = true
  /\ PyStr.contains "abd" "xabcabd" = true
  /\ PyStr.contains "mit license" "mit" = false.
Proof. repeat split. Qed.

Example of_Z_ex : PyStr.of_Z 0 = "0" /\ PyStr.of_Z (-42) = "-42".
Proof. split; reflexivity. Qed.

Example main_negation : (p ← p3; Ok (is_negation p)) = Ok true.
Proof. vm_compute. reflexivity. Qed.

Example main_fuzzy :
  (a ← p4; b ← p5; Ok (matches a b true, matches a b false))
  = Ok (true, false).
Proof. vm_compute. reflexivity. Qed.

(** ** Facts about the string primitives *)

Section StringFacts.

Import PyStr.

Lemma prefix_app (u s : string) :
  String.prefix u s = true <-> exists post, s = u ++ post.
Proof.
  revert s. induction u as [|c u IH]; intros s.
  - split; [intros _; now exists s | intros _; now destruct s].
  - destruct s as [|d s].
    + split; [discriminate | intros [post H]; discriminate].
    + cbn [String.prefix append].
      destruct (ascii_dec c d) as [Heq|Hne].
      * rewrite IH. split; intros [post H]; exists post.
        -- now rewrite H, Heq.
        -- now injection H.
      * split; [discriminate | intros [post H]; injection H; congruence].
Qed.

(** [u in s] holds exactly when [s] is [pre ++ u ++ post]. *)
Lemma contains_app (u s : string) :
  contains u s = true <-> exists pre post, s = pre ++ u ++ post.
Proof.
  induction s as [|d s IH].
  - cbn [contains]. rewrite orb_false_r, prefix_app. split.
    + intros [post H]. now exists EmptyString, post.
    + intros [pre [post H]]. destruct pre; [now exists post | discriminate].
  - cbn [contains]. rewrite orb_true_iff, prefix_app, IH. split.
    + intros [[post H] | [pre [post H]]].
      * now exists EmptyString, post.
      * exists (String d pre), post. simpl. now rewrite H.
    + intros [pre [post H]]. destruct pre as [|e pre].
      * left. now exists post.
      * right. exists pre, post. simpl in H. now injection H.
Qed.

Lemma contains_empty (s : string) : contains EmptyString s = true.
Proof. destruct s; reflexivity. Qed.

Lemma rstrip_idem (s : string) : rstrip (rstrip s) = rstrip s.
Proof.
  induction s as [|c s IH]; [reflexivity|].
  simpl. destruct (rstrip s) as [|d r] eqn:E.
  - destruct (is_space c) eqn:Hc; simpl; [reflexivity | now rewrite Hc].
  - change (rstrip (String c (String d r))) with
      (match rstrip (String d r) with
       | EmptyString =>
           if is_space c then EmptyString else String c EmptyString
       | String a b => String c (String a b)
       end).
    now rewrite IH.
Qed.

Lemma lstrip_idem (s : string) : lstrip (lstrip s) = lstrip s.
Proof.
  induction s as [|c s IH]; [reflexivity|].
  simpl. destruct (is_space c) eqn:Hc; [exact IH | simpl; now rewrite Hc].
Qed.

Lemma rstrip_lstrip (s : string) :
  rstrip s = s -> rstrip (lstrip s) = lstrip s.
Proof.
  induction s as [|c s IH]; [reflexivity|].
  intros H. cbn [lstrip]. destruct (is_space c) eqn:Hc; [|exact H].
  apply IH. simpl in H. rewrite Hc in H.
  destruct (rstrip s); [discriminate | now injection H].
Qed.

(** Trimming a trimmed string changes nothing. *)
Lemma strip_idem (s : string) : strip (strip s) = strip s.
Proof.
  unfold strip.
  rewrite (rstrip_lstrip (rstrip s)) by apply rstrip_idem.
  apply lstrip_idem.
Qed.

Lemma starts_nonspace_app (x y : string) :
  starts_nonspace x -> starts_nonspace (x ++ y).
Proof. destruct x; [contradiction | exact id]. Qed.

(** Every word that [split] returns begins with a character that is not
    whitespace. *)
Lemma split_from_words (w : option string) (s : string) :
  (forall x, w = Some x -> starts_nonspace x) ->
  Forall starts_nonspace (split_from w s).
Proof.
  revert w. induction s as [|c s IH]; intros w Hw.
  - destruct w; cbn [split_from]; auto.
  - cbn [split_from]. destruct (is_space c) eqn:Hc.
    + destruct w as [x|].
      * constructor; [now apply Hw | apply IH; discriminate].
      * apply IH; discriminate.
    + apply IH. intros x Hx. injection Hx as <-.
      destruct w as [y|]; [apply starts_nonspace_app; now apply Hw | exact Hc].
Qed.

Lemma split_from_Some (y s : string) : split_from (Some y) s <> [].
Proof.
  revert y. induction s as [|c s IH]; intros y; cbn [split_from].
  - discriminate.
  - destruct (is_space c); [discriminate | apply IH].
Qed.

Lemma split_nonspace (x : string) : starts_nonspace x -> split x <> [].
Proof.
  destruct x as [|c x]; [contradiction|]. cbn [starts_nonspace].
  intros Hc. unfold split. cbn [split_from]. rewrite Hc.
  apply split_from_Some.
Qed.

Lemma join_nonspace (sep w : string) (ws : list string) :
  starts_nonspace w -> starts_nonspace (join sep (w :: ws)).
Proof.
  intros H. unfold join. cbn [concat].
  destruct ws; [exact H | now apply starts_nonspace_app].
Qed.

End StringFacts.

(** ** Construction *)

Lemma confidence_check (c : pyfloat) :
  float_le (Finite 0) c && float_le c (Finite 1) = true
  <-> in_unit_interval c.
Proof.
  unfold in_unit_interval. destruct c as [q| | |]; simpl.
  - rewrite andb_true_iff, !Qle_bool_iff. split.
    + intros [H0 H1]. now exists q.
    + intros [q' [E [H0 H1]]]. injection E as ->. now split.
  - split; [discriminate | intros [q [E _]]; discriminate].
  - split; [discriminate | intros [q [E _]]; discriminate].
  - split; [discriminate | intros [q [E _]]; discriminate].
Qed.

Lemma trim_obj_None (o : atom) : trim_obj o = ANone <-> o = ANone.
Proof. destruct o; simpl; split; congruence. Qed.

(** The two outcomes of a constructor call, by cases on its checks. *)
Lemma Predicate_init_cases s r o c src t md :
  let blank := PyStr.strip s = EmptyString \/ PyStr.strip r = EmptyString
               \/ o = ANone in
  (blank /\ Predicate_init s r o c src t md
            = Raise (ValueError empty_field_message))
  \/ (~ blank /\ ~ in_unit_interval c
      /\ Predicate_init s r o c src t md
         = Raise (ValueError (confidence_message c)))
  \/ (~ blank /\ in_unit_interval c
      /\ Predicate_init s r o c src t md
         = Ok (mkPredicate (PyStr.strip s) (PyStr.strip r) (trim_obj o)
                           c src t md)).
Proof.
  intros blank. unfold Predicate_init, __post_init__. cbn [subj pred obj
    confidence source predicate_type metadata].
  fold (trim_obj o).
  destruct (String.eqb (PyStr.strip s) EmptyString) eqn:Es.
  { left. apply String.eqb_eq in Es. split; [now left | reflexivity]. }
  destruct (String.eqb (PyStr.strip r) EmptyString) eqn:Er.
  { left. apply String.eqb_eq in Er. split; [right; now left | reflexivity]. }
  apply String.eqb_neq in Es, Er.
  destruct o as [|b|z|x].
  { left. split; [right; now right | reflexivity]. }
  all: cbn [orb trim_obj].
  all: assert (Hnb : ~ blank)
    by (intros [H|[H|H]]; [now apply Es | now apply Er | discriminate]).
  all: right.
  all: destruct (float_le (Finite 0) c && float_le c (Finite 1)) eqn:Ec;
    cbn [negb];
    [ right; apply confidence_check in Ec; now repeat split
    | left; repeat split; try assumption;
      rewrite <- confidence_check, Ec; discriminate ].
Qed.

Lemma init_Ok_fields s r o c src t md p :
  Predicate_init s r o c src t md = Ok p ->
  p = mkPredicate (PyStr.strip s) (PyStr.strip r) (trim_obj o) c src t md
  /\ PyStr.strip s <> EmptyString /\ PyStr.strip r <> EmptyString
  /\ o <> ANone /\ in_unit_interval c.
Proof.
  intros H.
  destruct (Predicate_init_cases s r o c src t md)
    as [[_ E] | [[_ [_ E]] | [Hnb [Hc E]]]]; rewrite E in H; try discriminate.
  injection H as <-. repeat split; try assumption; intros X; apply Hnb; tauto.
Qed.

(** Every constructed instance is well formed. *)
Lemma init_well_formed s r o c src t md p :
  Predicate_init s r o c src t md = Ok p -> well_formed p.
Proof.
  intros H. apply init_Ok_fields in H as [-> [Hs [Hr [Ho Hc]]]].
  constructor; cbn [subj pred obj confidence]; try assumption.
  - now rewrite trim_obj_None.
  - apply strip_idem.
  - apply strip_idem.
  - intros x Hx. destruct o; try discriminate. injection Hx as <-.
    apply strip_idem.
Qed.

Lemma valid_well_formed (p : Predicate) : valid p <-> well_formed p.
Proof.
  split.
  - intros (s & r & o & c & src & t & md & H).
    eapply init_well_formed, H.
  - intros [Hs Hr Ho Hc Hst Hrt Hot]. destruct p as [s r o c src t md].
    cbn [subj pred obj confidence] in *.
    exists s, r, o, c, src, t, md.
    destruct (Predicate_init_cases s r o c src t md)
      as [[Hb _] | [[_ [Hn _]] | [_ [_ E]]]].
    + rewrite Hst, Hrt in Hb. tauto.
    + contradiction.
    + rewrite E, Hst, Hrt. do 2 f_equal.
      destruct o; try reflexivity. simpl. f_equal. now apply Hot.
Qed.

(** C4: construction raises exactly when the trimmed subject or relation is
    empty, the object is [None], or the confidence is outside [0, 1].  The
    exception is a [ValueError] carrying one of the two fixed messages; when
    the three structural checks pass and the confidence is out of range, the
    message interpolates the offending confidence; and an instance that is
    returned is well formed, so no instance in an invalid state is
    observable. *)
Theorem construction_fails_exactly s r o c src t md :
  ((exists e, Predicate_init s r o c src t md = Raise e)
   <-> (PyStr.strip s = EmptyString \/ PyStr.strip r = EmptyString
        \/ o = ANone \/ ~ in_unit_interval c))
  /\ (forall e, Predicate_init s r o c src t md = Raise e ->
        e = ValueError empty_field_message
        \/ e = ValueError (confidence_message c))
  /\ (PyStr.strip s <> EmptyString -> PyStr.strip r <> EmptyString ->
      o <> ANone -> ~ in_unit_interval c ->
      exists m, Predicate_init s r o c src t md = Raise (ValueError m)
                /\ In (Val (VFloat c)) m)
  /\ (forall p, Predicate_init s r o c src t md = Ok p -> well_formed p).
Proof.
  pose proof (Predicate_init_cases s r o c src t md) as H. cbv zeta in H.
  split; [split | split; [| split]].
  - intros [e He].
    destruct H as [[Hb _] | [[_ [Hc _]] | [_ [_ E]]]];
      [tauto | tauto | congruence].
  - intros Hcond.
    destruct H as [[_ E] | [[_ [_ E]] | [Hnb [Hc E]]]]; eauto.
    exfalso. tauto.
  - intros e He.
    destruct H as [[_ E] | [[_ [_ E]] | [_ [_ E]]]]; rewrite E in He;
      [left | right | discriminate]; congruence.
  - intros Hs Hr Ho Hc.
    destruct H as [[Hb _] | [[_ [_ E]] | [_ [Hc' _]]]]; [tauto | | tauto].
    exists (confidence_message c). split; [exact E | right; now left].
  - intros p. apply init_well_formed.
Qed.

(** C10: with a non-empty trimmed subject and relation (and a confidence in
    range), construction succeeds for every object other than [None]: the
    stored object is the argument, trimmed when it is a string.  So the
    empty string, [0] and [False] are accepted, and an instance whose
    object is the empty string is valid. *)
Theorem falsy_object_accepted s r c src t md :
  PyStr.strip s <> EmptyString ->
  PyStr.strip r <> EmptyString ->
  in_unit_interval c ->
  (forall o, o <> ANone ->
     exists p, Predicate_init s r o c src t md = Ok p
               /\ obj p = trim_obj o /\ valid p)
  /\ (exists p, Predicate_init s r (AStr EmptyString) c src t md = Ok p
                /\ obj p = AStr EmptyString /\ valid p)
  /\ (exists p, Predicate_init s r (AInt 0) c src t md = Ok p
                /\ obj p = AInt 0)
  /\ (exists p, Predicate_init s r (ABool false) c src t md = Ok p
                /\ obj p = ABool false)
  /\ Predicate_init s r ANone c src t md
     = Raise (ValueError empty_field_message).
Proof.
  intros Hs Hr Hc.
  assert (G : forall o, o <> ANone ->
     exists p, Predicate_init s r o c src t md = Ok p
               /\ obj p = trim_obj o /\ valid p).
  { intros o Ho.
    destruct (Predicate_init_cases s r o c src t md)
      as [[Hb _] | [[_ [Hn _]] | [_ [_ E]]]]; [tauto | tauto |].
    eexists. split; [exact E|]. split; [reflexivity|].
    now exists s, r, o, c, src, t, md. }
  split; [exact G|].
  split; [apply (G (AStr EmptyString)); discriminate|].
  split.
  { destruct (G (AInt 0)) as [p [E [Ho _]]]; [discriminate | eauto]. }
  split.
  { destruct (G (ABool false)) as [p [E [Ho _]]]; [discriminate | eauto]. }
  destruct (Predicate_init_cases s r ANone c src t md)
    as [[_ E] | [[Hb _] | [Hb _]]]; [exact E | |]; exfalso; apply Hb; tauto.
Qed.

Lemma falsy_object_accepted_witness :
  exists p, Predicate3 "s" "r" (AStr EmptyString) = Ok p
            /\ obj p = AStr EmptyString /\ valid p.
Proof.
  refine (proj1 (proj2 (falsy_object_accepted "s" "r" (Finite 1) None None ∅
                          _ _ _))).
  - vm_compute. discriminate.
  - vm_compute. discriminate.
  - exists 1%Q. repeat split; discriminate.
Defined.

(** ** Negation *)

Lemma negation_predicates_list (x : string) :
  x ∈ negation_predicates <-> In x negative_relation_tokens.
Proof.
  unfold negation_predicates, negative_relation_tokens.
  set_unfold. cbn [In]. intuition congruence.
Qed.

(** C9: [is_negation] is true exactly when the relation is one of the
    fourteen tokens, compared character by character, or starts with
    [not_].  It is a total function on instances: true for [cannot] and
    [not_allowed], false for [allows], and false for a token in another
    letter case. *)
Theorem is_negation_exactly :
  (forall p, is_negation p = true
             <-> In (pred p) negative_relation_tokens
                 \/ exists rest, pred p = "not_" ++ rest)
  /\ (forall p, pred p = "cannot" -> is_negation p = true)
  /\ (forall p, pred p = "not_allowed" -> is_negation p = true)
  /\ (forall p, pred p = "allows" -> is_negation p = false)
  /\ (forall p, pred p = "Cannot" -> is_negation p = false).
Proof.
  split.
  - intros p. unfold is_negation, PyStr.startswith.
    rewrite orb_true_iff, bool_decide_eq_true, negation_predicates_list,
      prefix_app.
    reflexivity.
  - repeat split; intros p H; unfold is_negation; rewrite H; vm_compute;
      reflexivity.
Qed.

(** ** Exact matching *)

Lemma atom_eq_same_value (a b : atom) :
  atom_eq a b = true <-> same_value a b.
Proof.
  unfold same_value.
  destruct a as [|x|x|x], b as [|y|y|y]; cbn [atom_eq as_int];
    rewrite ?Z.eqb_eq, ?String.eqb_eq; split;
    try discriminate; try tauto;
    try (intros [[? ?] | [[? [? ?]] | [? [? ?]]]]; congruence);
    try (intros <-; right; eauto).
  all: intros H; right; right; eexists; split; [reflexivity | congruence].
Qed.

Lemma atom_eq_refl (a : atom) : atom_eq a a = true.
Proof.
  destruct a as [|[]|z|s]; cbn [atom_eq as_int];
    auto using Z.eqb_refl, String.eqb_refl.
Qed.

Lemma atom_eq_sym (a b : atom) : atom_eq a b = atom_eq b a.
Proof.
  destruct a, b; cbn [atom_eq as_int];
    auto using Z.eqb_sym, String.eqb_sym.
Qed.

Lemma atom_eq_trans (a b c : atom) :
  atom_eq a b = true -> atom_eq b c = true -> atom_eq a c = true.
Proof.
  destruct a, b, c; cbn [atom_eq as_int];
    rewrite ?Z.eqb_eq, ?String.eqb_eq; congruence.
Qed.

Lemma triple_eq_true (a b : Predicate) :
  triple_eq (to_triple a) (to_triple b) = true <-> identical_triples a b.
Proof.
  unfold triple_eq, to_triple, identical_triples.
  rewrite !andb_true_iff, !String.eqb_eq, atom_eq_same_value. tauto.
Qed.

(** C7: without [fuzzy], [matches] holds exactly when the two triples are
    the same, objects being compared by value; for a textual object that is
    equality of the triples.  The relation is reflexive, symmetric and
    transitive. *)
Theorem exact_matches_equivalence :
  (forall a b, matches a b false = true <-> identical_triples a b)
  /\ (forall a b, to_triple a = to_triple b -> matches a b false = true)
  /\ (forall a b s, obj a = AStr s ->
        (matches a b false = true <-> to_triple a = to_triple b))
  /\ (forall a, matches a a false = true)
  /\ (forall a b, matches a b false = matches b a false)
  /\ (forall a b c, matches a b false = true -> matches b c false = true ->
        matches a c false = true).
Proof.
  cbn [matches]. split; [exact triple_eq_true|].
  assert (R : forall a, triple_eq (to_triple a) (to_triple a) = true).
  { intros a. unfold triple_eq, to_triple.
    now rewrite !String.eqb_refl, atom_eq_refl. }
  split; [|split; [|split; [exact R | split]]].
  - intros a b H. unfold triple_eq. rewrite <- H. apply R.
  - intros a b s Hs. split.
    + rewrite triple_eq_true. intros (H1 & H2 & H3). unfold to_triple.
      rewrite H1, H2. f_equal. rewrite Hs in *.
      destruct H3 as [[? _] | [[x [Hx ->]] | [z [? _]]]];
        [discriminate | congruence | discriminate].
    + intros H. unfold triple_eq. rewrite <- H. apply R.
  - intros a b. unfold triple_eq, to_triple.
    now rewrite (String.eqb_sym (subj a)), (String.eqb_sym (pred a)),
      (atom_eq_sym (obj a)).
  - intros a b c. unfold triple_eq, to_triple.
    rewrite !andb_true_iff, !String.eqb_eq.
    intros [[-> ->] H1] [[-> ->] H2].
    repeat split; eauto using atom_eq_trans.
Qed.

(** ** Fuzzy matching *)

Example normalize_ex :
  normalize "  MIT_License " = "mit license"
  /\ normalize "_a_" = "a"
  /\ normalize "commercial   use" = "commercial use"
  /\ normalize "_" = EmptyString.
Proof. repeat split. Qed.

Lemma fuzzy_match_unfold (s1 s2 : string) (threshold : pyfloat) :
  _fuzzy_match s1 s2 threshold =
  let n1 := normalize s1 in
  let n2 := normalize s2 in
  if String.eqb n1 n2 then true
  else if PyStr.contains n1 n2 || PyStr.contains n2 n1 then true
  else if bool_decide (token_set n1 = ∅) || bool_decide (token_set n2 = ∅)
  then false
  else if Nat.eqb (size (token_set n1 ∪ token_set n2)) 0 then false
  else float_le threshold (Finite (jaccard (token_set n1) (token_set n2))).
Proof. reflexivity. Qed.

(** [_fuzzy_match] does not depend on the order of its operands. *)
Lemma fuzzy_match_sym (s1 s2 : string) (threshold : pyfloat) :
  _fuzzy_match s1 s2 threshold = _fuzzy_match s2 s1 threshold.
Proof.
  rewrite !fuzzy_match_unfold. cbv zeta. unfold jaccard.
  rewrite (String.eqb_sym (normalize s2)).
  rewrite (orb_comm (PyStr.contains (normalize s2) (normalize s1))).
  rewrite (orb_comm (bool_decide (token_set (normalize s2) = ∅))).
  rewrite (union_comm_L (token_set (normalize s2))).
  rewrite (intersection_comm_L (token_set (normalize s2))).
  reflexivity.
Qed.

(** [_fuzzy_match] decides [approx_equal]. *)
Lemma fuzzy_match_approx (s1 s2 : string) (t : Q) :
  _fuzzy_match s1 s2 (Finite t) = true <-> approx_equal t s1 s2.
Proof.
  rewrite fuzzy_match_unfold. unfold approx_equal, is_substring. cbv zeta.
  set (n1 := normalize s1). set (n2 := normalize s2).
  destruct (String.eqb n1 n2) eqn:E.
  { apply String.eqb_eq in E. tauto. }
  apply String.eqb_neq in E.
  destruct (PyStr.contains n1 n2) eqn:C12.
  { apply contains_app in C12. cbn [orb]. tauto. }
  destruct (PyStr.contains n2 n1) eqn:C21.
  { apply contains_app in C21. cbn [orb]. tauto. }
  cbn [orb].
  assert (N12 : ~ exists pre post, n2 = pre ++ n1 ++ post)
    by (rewrite <- contains_app, C12; discriminate).
  assert (N21 : ~ exists pre post, n1 = pre ++ n2 ++ post)
    by (rewrite <- contains_app, C21; discriminate).
  destruct (bool_decide (token_set n1 = ∅)) eqn:B1.
  { apply bool_decide_eq_true in B1. cbn [orb].
    split; [discriminate | tauto]. }
  destruct (bool_decide (token_set n2 = ∅)) eqn:B2.
  { apply bool_decide_eq_true in B2. cbn [orb].
    split; [discriminate | tauto]. }
  apply bool_decide_eq_false in B1, B2. cbn [orb].
  destruct (Nat.eqb (size (token_set n1 ∪ token_set n2)) 0) eqn:U.
  { exfalso. apply Nat.eqb_eq, size_empty_iff in U. apply B1.
    apply leibniz_equiv. set_solver. }
  cbn [float_le]. rewrite Qle_bool_iff. tauto.
Qed.

(** A normal form that is not empty has a word. *)
Lemma normalize_words (s : string) :
  normalize s <> EmptyString -> token_set (normalize s) <> ∅.
Proof.
  unfold normalize, token_set.
  set (x := PyStr.replace "_" " " (PyStr.strip (PyStr.lower s))).
  pose proof (split_from_words None x) as Hw. fold (PyStr.split x) in Hw.
  destruct (PyStr.split x) as [|w ws] eqn:E.
  - intros H. now contradiction H.
  - intros _. assert (Hs : Forall starts_nonspace (w :: ws))
      by (apply Hw; discriminate).
    inversion Hs as [|? ? Hw1 _]; subst.
    pose proof (split_nonspace _ (join_nonspace " " w ws Hw1)) as Hne.
    destruct (PyStr.split (PyStr.join " " (w :: ws))) as [|v vs];
      [congruence|].
    cbn [list_to_set]. set_solver.
Qed.

(** When neither normal form occurs in the other, both have a word: the
    two tests of [_fuzzy_match] that answer [false] for an empty word set
    or an empty union never fire. *)
Lemma empty_word_set_unreachable (s1 s2 : string) :
  PyStr.contains (normalize s1) (normalize s2)
  || PyStr.contains (normalize s2) (normalize s1) = false ->
  bool_decide (token_set (normalize s1) = ∅)
  || bool_decide (token_set (normalize s2) = ∅) = false
  /\ Nat.eqb (size (token_set (normalize s1) ∪ token_set (normalize s2))) 0
     = false.
Proof.
  intros H. apply orb_false_iff in H as [H12 H21].
  assert (N1 : normalize s1 <> EmptyString)
    by (intros E; rewrite E, contains_empty in H12; discriminate).
  assert (N2 : normalize s2 <> EmptyString)
    by (intros E; rewrite E, contains_empty in H21; discriminate).
  apply normalize_words in N1, N2. split.
  - apply orb_false_iff. split; now apply bool_decide_eq_false.
  - apply Nat.eqb_neq. intros U. apply size_empty_iff in U. apply N1.
    apply leibniz_equiv. set_solver.
Qed.

Lemma Predicate3_valid s r o p : Predicate3 s r o = Ok p -> valid p.
Proof. intros H. now exists s, r, o, (Finite 1), None, None, ∅. Qed.

(** C8: fuzzy matching is symmetric, and it is not transitive: of three
    valid instances with the subjects [a b c], [b c d] and [c d e] the
    first two and the last two match (two shared words of four), the first
    and the last do not (one of five). *)
Theorem fuzzy_symmetric_not_transitive :
  (forall a b, matches a b true = matches b a true)
  /\ exists A B C,
       Predicate3 "a b c" "r" (AStr "o") = Ok A
       /\ Predicate3 "b c d" "r" (AStr "o") = Ok B
       /\ Predicate3 "c d e" "r" (AStr "o") = Ok C
       /\ valid A /\ valid B /\ valid C
       /\ matches A B true = true
       /\ matches B C true = true
       /\ matches A C true = false.
Proof.
  split.
  - intros a b. cbn [matches].
    now rewrite (fuzzy_match_sym (subj a)), (fuzzy_match_sym (str (obj a))),
      (String.eqb_sym (pred a)).
  - do 3 eexists.
    split; [vm_compute; reflexivity|].
    split; [vm_compute; reflexivity|].
    split; [vm_compute; reflexivity|].
    split; [apply (Predicate3_valid "a b c" "r" (AStr "o")); reflexivity|].
    split; [apply (Predicate3_valid "b c d" "r" (AStr "o")); reflexivity|].
    split; [apply (Predicate3_valid "c d e" "r" (AStr "o")); reflexivity|].
    repeat split; vm_compute; reflexivity.
Qed.

(** C3: with [fuzzy], [matches] holds exactly when the relations are equal
    character by character, the subjects are approximately equal and the
    texts of the objects are approximately equal, at the threshold one
    half.  Approximate equality is: equal normal forms, or one normal form
    occurring in the other, or both word sets non-empty with a Jaccard
    similarity of at least the threshold.  The pair of the specification
    matches with [fuzzy] and does not match without. *)
Theorem fuzzy_matches_exactly :
  (forall a b,
     matches a b true = true
     <-> pred a = pred b
         /\ approx_equal (1 # 2) (subj a) (subj b)
         /\ approx_equal (1 # 2) (str (obj a)) (str (obj b)))
  /\ exists a b,
       Predicate3 "MIT License" "allows" (AStr "commercial_use") = Ok a
       /\ Predicate3 "MIT" "allows" (AStr "commercial use") = Ok b
       /\ matches a b true = true
       /\ matches a b false = false.
Proof.
  split.
  - intros a b. cbn [matches]. unfold default_threshold.
    rewrite !andb_true_iff, !fuzzy_match_approx, String.eqb_eq. tauto.
  - do 2 eexists.
    split; [vm_compute; reflexivity|].
    split; [vm_compute; reflexivity|].
    split; vm_compute; reflexivity.
Qed.

(** C6: what [_fuzzy_match] does when one operand normalizes to the empty
    string.  The empty string occurs in every string, so the occurrence
    test answers before the word sets are looked at: the result is [true]
    whatever the other operand is, and the test that answers [false] for an
    empty word set never fires.  So the valid instances with the subjects
    [_] and [abc] match. *)
Theorem empty_operand_matches_everything :
  (forall s1 s2 t,
     normalize s1 = EmptyString ->
     _fuzzy_match s1 s2 t = true /\ _fuzzy_match s2 s1 t = true)
  /\ (forall s1 s2,
        PyStr.contains (normalize s1) (normalize s2)
        || PyStr.contains (normalize s2) (normalize s1) = false ->
        bool_decide (token_set (normalize s1) = ∅)
        || bool_decide (token_set (normalize s2) = ∅) = false)
  /\ exists a b,
       Predicate3 "_" "r" (AStr "x") = Ok a
       /\ Predicate3 "abc" "r" (AStr "x") = Ok b
       /\ valid a /\ valid b
       /\ normalize (subj a) = EmptyString
       /\ normalize (subj b) <> EmptyString
       /\ _fuzzy_match (subj a) (subj b) default_threshold = true
       /\ matches a b true = true.
Proof.
  split; [|split].
  - intros s1 s2 t H.
    assert (G : _fuzzy_match s1 s2 t = true).
    { rewrite fuzzy_match_unfold. cbv zeta. rewrite H.
      destruct (String.eqb EmptyString (normalize s2)); [reflexivity|].
      now rewrite contains_empty. }
    split; [exact G | now rewrite fuzzy_match_sym].
  - intros s1 s2 H. now apply empty_word_set_unreachable.
  - do 2 eexists.
    split; [vm_compute; reflexivity|].
    split; [vm_compute; reflexivity|].
    split; [apply (Predicate3_valid "_" "r" (AStr "x")); reflexivity|].
    split; [apply (Predicate3_valid "abc" "r" (AStr "x")); reflexivity|].
    split; [vm_compute; reflexivity|].
    split; [vm_compute; discriminate|].
    split; vm_compute; reflexivity.
Qed.

(** ** Record round trip *)

Lemma to_dict_type (p : Predicate) :
  to_dict p !! "type"
  = Some (match predicate_type p with
          | Some t => VEnum t
          | None => VAtom ANone
          end).
Proof. reflexivity. Qed.

Lemma to_dict_subject (p : Predicate) :
  to_dict p !! "subject" = Some (VAtom (AStr (subj p))).
Proof. reflexivity. Qed.

Lemma to_dict_predicate (p : Predicate) :
  to_dict p !! "predicate" = Some (VAtom (AStr (pred p))).
Proof. reflexivity. Qed.

Lemma to_dict_object (p : Predicate) :
  to_dict p !! "object" = Some (VAtom (obj p)).
Proof. reflexivity. Qed.

Lemma to_dict_obj (p : Predicate) : to_dict p !! "obj" = None.
Proof. reflexivity. Qed.

(** C1: what [from_dict] does on the record [to_dict] writes.  The record
    holds the object under the key [object], and [from_dict] reads the key
    [obj]; and a record whose [type] is [None] fails the conversion of the
    tag.  So [from_dict (to_dict p)] raises for every instance and no
    instance is read back. *)
Theorem from_dict_to_dict_raises (p : Predicate) :
  from_dict (to_dict p)
  = Raise (match predicate_type p with
           | None => not_a_member (VAtom ANone)
           | Some _ => KeyError "obj"
           end).
Proof.
  unfold from_dict, get, getitem.
  rewrite to_dict_type, to_dict_subject, to_dict_predicate, to_dict_obj.
  destruct (predicate_type p); reflexivity.
Qed.

(** ** Equality and hashing *)

(** C2: two instances with the same triple compare equal whatever their
    other fields are.  [__hash__] passes the three components to the
    builtin [hash] as three arguments, so hashing an instance raises
    [TypeError] and gives no hash value, for every instance and every
    string hash. *)
Theorem equal_triples_eq_and_hash_raises :
  (forall a b, to_triple a = to_triple b -> __eq__ a (OPredicate b) = true)
  /\ (forall str_hash p, __hash__ str_hash p = Raise hash_arity_error)
  /\ exists a b,
       Predicate_init "s" "r" (AStr "o") (Finite (1 # 2)) None None ∅ = Ok a
       /\ Predicate_init "s" "r" (AStr "o") (Finite 1) (Some "doc")
            (Some ASSERTION) {[ "year" := AInt 1991 ]} = Ok b
       /\ __eq__ a (OPredicate b) = true
       /\ forall str_hash,
            __hash__ str_hash a = Raise hash_arity_error
            /\ __hash__ str_hash b = Raise hash_arity_error.
Proof.
  split; [|split].
  - intros a b H. cbn [__eq__]. rewrite <- H. unfold triple_eq, to_triple.
    now rewrite !String.eqb_refl, atom_eq_refl.
  - reflexivity.
  - do 2 eexists.
    split; [vm_compute; reflexivity|].
    split; [vm_compute; reflexivity|].
    split; [vm_compute; reflexivity|].
    intros h. split; reflexivity.
Qed.

(** ** Reading a record *)

Lemma from_dict_type_absent (data : gmap string value) :
  data !! "type" = None ->
  from_dict data = Raise (not_a_member (VAtom ANone)).
Proof. intros H. unfold from_dict, get. now rewrite H. Qed.

Lemma from_dict_obj_absent (data : gmap string value) :
  data !! "obj" = None ->
  from_dict data = Raise (KeyError "obj")
  \/ from_dict data = Raise (KeyError "subject")
  \/ from_dict data = Raise (KeyError "predicate")
  \/ exists v, from_dict data = Raise (not_a_member v).
Proof.
  intros H. unfold from_dict, getitem. rewrite H.
  destruct (PredicateType_call _) as [t|e] eqn:E.
  - cbn [mbind result_bind].
    destruct (data !! "subject"); [|tauto].
    destruct (data !! "predicate"); tauto.
  - right; right; right. cbn [mbind result_bind].
    unfold PredicateType_call in E.
    repeat match type of E with
           | match ?x with _ => _ end = _ => destruct x
           end; try discriminate; injection E as <-; eauto.
Qed.

(** C5: what [from_dict] does on records.  A record without [type] raises
    [ValueError] instead of reading the tag as absent, also when the three
    keys [subject], [predicate] and [object] are present.  The third key
    the code requires is [obj] and not [object]: without [obj] no record
    is read, a record with a valid [type] and the three keys of the
    specification raises [KeyError] on [obj], and a record with [obj] and
    no [object] is read.  A [type] that is no tag raises [ValueError]. *)
Theorem from_dict_behaviour :
  (forall data, data !! "type" = None ->
     from_dict data = Raise (not_a_member (VAtom ANone)))
  /\ (forall data p, data !! "obj" = None -> from_dict data <> Ok p)
  /\ from_dict record_spec_keys = Raise (not_a_member (VAtom ANone))
  /\ from_dict (<["type" := VAtom (AStr "assertion")]> record_spec_keys)
     = Raise (KeyError "obj")
  /\ from_dict (<["type" := VAtom (AStr "assertion")]> record_obj_key)
     = Ok (mkPredicate "s" "r" (AStr "o") (Finite 1) None (Some ASSERTION) ∅)
  /\ from_dict (<["type" := VAtom (AStr "bogus")]> record_obj_key)
     = Raise (not_a_member (VAtom (AStr "bogus"))).
Proof.
  split; [exact from_dict_type_absent|].
  split.
  - intros data p H E.
    destruct (from_dict_obj_absent data H) as [X | [X | [X | [v X]]]];
      rewrite X in E; discriminate.
  - repeat split; vm_compute; reflexivity.
Qed.

(** * Further properties *)

(** ** Construction, continued *)

Lemma init_of_well_formed (p : Predicate) :
  well_formed p ->
  Predicate_init (subj p) (pred p) (obj p) (confidence p) (source p)
                 (predicate_type p) (metadata p) = Ok p.
Proof.
  intros [Hs Hr Ho Hc Hst Hrt Hot]. destruct p as [s r o c src t md].
  cbn [subj pred obj confidence source predicate_type metadata] in *.
  destruct (Predicate_init_cases s r o c src t md)
    as [[Hb _] | [[_ [Hn _]] | [_ [_ E]]]].
  - rewrite Hst, Hrt in Hb. tauto.
  - contradiction.
  - rewrite E, Hst, Hrt. do 2 f_equal.
    destruct o; try reflexivity. simpl. f_equal. now apply Hot.
Qed.

Lemma lstrip_starts (s : string) :
  PyStr.lstrip s = EmptyString \/ starts_nonspace (PyStr.lstrip s).
Proof.
  induction s as [|c s IH]; [now left|].
  cbn [PyStr.lstrip]. destruct (PyStr.is_space c) eqn:Hc; [exact IH|].
  right. exact Hc.
Qed.

Lemma rstrip_ends (s : string) :
  PyStr.rstrip s = EmptyString \/ ends_nonspace (PyStr.rstrip s).
Proof.
  induction s as [|c s IH]; [now left|].
  cbn [PyStr.rstrip]. destruct (PyStr.rstrip s) as [|d r] eqn:E.
  - destruct (PyStr.is_space c) eqn:Hc; [now left | right; exact Hc].
  - right. destruct IH as [IH|IH]; [discriminate | exact IH].
Qed.

Lemma lstrip_ends (s : string) :
  ends_nonspace s -> ends_nonspace (PyStr.lstrip s).
Proof.
  induction s as [|c s IH]; [contradiction|].
  intros H. cbn [PyStr.lstrip]. destruct (PyStr.is_space c) eqn:Hc; [|exact H].
  apply IH. destruct s; [cbn in H; congruence | exact H].
Qed.

(** A trimmed string is empty, or begins and ends with characters that
    are not whitespace. *)
Lemma strip_ends (s : string) :
  PyStr.strip s = EmptyString
  \/ (starts_nonspace (PyStr.strip s) /\ ends_nonspace (PyStr.strip s)).
Proof.
  unfold PyStr.strip.
  destruct (lstrip_starts (PyStr.rstrip s)) as [H|H]; [now left|].
  right. split; [exact H|].
  destruct (rstrip_ends s) as [E|E].
  - rewrite E in H. contradiction.
  - now apply lstrip_ends.
Qed.

(** A string that begins and ends with characters that are not whitespace
    is left alone by [strip]. *)
Lemma rstrip_fixed (s : string) : ends_nonspace s -> PyStr.rstrip s = s.
Proof.
  induction s as [|c s IH]; [contradiction|].
  intros H. cbn [PyStr.rstrip]. destruct s as [|d s].
  - cbn in *. now rewrite H.
  - rewrite IH by exact H. reflexivity.
Qed.

Lemma strip_fixed (s : string) :
  starts_nonspace s -> ends_nonspace s -> PyStr.strip s = s.
Proof.
  intros H1 H2. unfold PyStr.strip. rewrite rstrip_fixed by exact H2.
  destruct s; [contradiction|]. cbn in *. now rewrite H1.
Qed.

(** X1: the fields an instance stores never begin or end with whitespace. *)
Theorem stored_text_has_no_outer_whitespace s r o c src t md p :
  Predicate_init s r o c src t md = Ok p ->
  starts_nonspace (subj p) /\ ends_nonspace (subj p)
  /\ starts_nonspace (pred p) /\ ends_nonspace (pred p)
  /\ (forall x, obj p = AStr x ->
        x = EmptyString \/ (starts_nonspace x /\ ends_nonspace x)).
Proof.
  intros H. apply init_Ok_fields in H as [-> [Hs [Hr _]]].
  cbn [subj pred obj].
  destruct (strip_ends s) as [E|[? ?]]; [contradiction|].
  destruct (strip_ends r) as [E'|[? ?]]; [contradiction|].
  repeat split; try assumption.
  intros x Hx. destruct o; try discriminate. injection Hx as <-.
  apply strip_ends.
Qed.

Lemma stored_text_has_no_outer_whitespace_witness :
  exists p, Predicate3 "  MIT License " "allows " (AStr " x ") = Ok p
            /\ starts_nonspace (subj p) /\ ends_nonspace (subj p).
Proof.
  eexists. split; [vm_compute; reflexivity|].
  pose proof (stored_text_has_no_outer_whitespace
                "  MIT License " "allows " (AStr " x ") (Finite 1) None None ∅
                _ eq_refl) as H.
  split; [exact (proj1 H) | exact (proj1 (proj2 H))].
Defined.

(** X2: the constructor does not see whitespace around its textual
    arguments: a call with padded arguments returns what the call with
    the trimmed arguments returns, an instance or an error. *)
Theorem construction_ignores_padding s r o c src t md :
  Predicate_init s r o c src t md
  = Predicate_init (PyStr.strip s) (PyStr.strip r) (trim_obj o) c src t md.
Proof.
  unfold Predicate_init, __post_init__.
  cbn [subj pred obj confidence source predicate_type metadata].
  rewrite !strip_idem.
  destruct o; cbn [trim_obj]; rewrite ?strip_idem; reflexivity.
Qed.

(** X3: building an instance again from the fields of a valid instance
    returns that instance. *)
Theorem construction_idempotent (p : Predicate) :
  valid p ->
  Predicate_init (subj p) (pred p) (obj p) (confidence p) (source p)
                 (predicate_type p) (metadata p) = Ok p.
Proof. intros Hv. now apply init_of_well_formed, valid_well_formed. Qed.

Lemma construction_idempotent_witness :
  Predicate_init "MIT" "allows" (AStr "use") (Finite 1) None None ∅
  = Ok (mkPredicate "MIT" "allows" (AStr "use") (Finite 1) None None ∅).
Proof.
  apply (construction_idempotent
           (mkPredicate "MIT" "allows" (AStr "use") (Finite 1) None None ∅)).
  exists "MIT", "allows", (AStr "use"), (Finite 1), None, None, ∅.
  vm_compute. reflexivity.
Defined.

(** X4: the check of the three fields comes first: when a field is empty
    the error is the empty-field error, also when the confidence is out of
    range. *)
Theorem empty_field_error_first s r o c src t md :
  PyStr.strip s = EmptyString \/ PyStr.strip r = EmptyString \/ o = ANone ->
  Predicate_init s r o c src t md = Raise (ValueError empty_field_message).
Proof.
  intros Hb.
  destruct (Predicate_init_cases s r o c src t md)
    as [[_ E] | [[Hn _] | [Hn _]]]; [exact E | |]; contradiction.
Qed.

Lemma empty_field_error_first_witness :
  Predicate_init "  " "r" (AStr "o") (Finite 2) None None ∅
  = Raise (ValueError empty_field_message).
Proof.
  apply empty_field_error_first. left. vm_compute. reflexivity.
Defined.

(** X5: a confidence that is not a number, or infinite, is rejected with
    the confidence error. *)
Theorem special_confidence_rejected s r o c src t md :
  PyStr.strip s <> EmptyString -> PyStr.strip r <> EmptyString ->
  o <> ANone ->
  c = NaN \/ c = PosInf \/ c = NegInf ->
  Predicate_init s r o c src t md
  = Raise (ValueError (confidence_message c)).
Proof.
  intros Hs Hr Ho Hc.
  destruct (Predicate_init_cases s r o c src t md)
    as [[Hb _] | [[_ [_ E]] | [_ [[q [Hq _]] _]]]];
    [tauto | exact E |].
  destruct Hc as [-> | [-> | ->]]; discriminate.
Qed.

Lemma special_confidence_rejected_witness :
  Predicate_init "s" "r" (AStr "o") NaN None None ∅
  = Raise (ValueError (confidence_message NaN)).
Proof.
  apply special_confidence_rejected;
    [vm_compute; discriminate | vm_compute; discriminate | discriminate
    | now left].
Defined.

(** ** Records, continued *)

Lemma to_dict_confidence (p : Predicate) :
  to_dict p !! "confidence" = Some (VFloat (confidence p)).
Proof. reflexivity. Qed.

Lemma to_dict_source (p : Predicate) :
  to_dict p !! "source"
  = Some (match source p with
          | Some s => VAtom (AStr s)
          | None => VAtom ANone
          end).
Proof. reflexivity. Qed.

Lemma to_dict_metadata (p : Predicate) :
  to_dict p !! "metadata" = Some (VDict (metadata p)).
Proof. reflexivity. Qed.

(** X6: [to_dict] loses nothing: instances with the same record are the
    same instance. *)
Theorem to_dict_injective (p q : Predicate) :
  to_dict p = to_dict q <-> p = q.
Proof.
  split; [|now intros ->]. intros H.
  pose proof (f_equal (fun m => m !! "subject") H) as H1.
  pose proof (f_equal (fun m => m !! "predicate") H) as H2.
  pose proof (f_equal (fun m => m !! "object") H) as H3.
  pose proof (f_equal (fun m => m !! "confidence") H) as H4.
  pose proof (f_equal (fun m => m !! "source") H) as H5.
  pose proof (f_equal (fun m => m !! "type") H) as H6.
  pose proof (f_equal (fun m => m !! "metadata") H) as H7.
  cbv beta in *.
  rewrite !to_dict_subject in H1. rewrite !to_dict_predicate in H2.
  rewrite !to_dict_object in H3. rewrite !to_dict_confidence in H4.
  rewrite !to_dict_source in H5. rewrite !to_dict_type in H6.
  rewrite !to_dict_metadata in H7.
  destruct p as [s r o c src t md], q as [s' r' o' c' src' t' md'].
  cbn [subj pred obj confidence source predicate_type metadata] in *.
  destruct src, src', t, t'; try discriminate; congruence.
Qed.

(** Lookup of a tag by its value. *)
Lemma PredicateType_call_value (s : string) (t : PredicateType) :
  PredicateType_call (VAtom (AStr s)) = Ok t <-> s = PredicateType_value t.
Proof.
  split.
  - unfold PredicateType_call, PredicateType_members. cbn [List.find].
    repeat match goal with
           | |- context [String.eqb ?a s] =>
               let E := fresh "E" in
               destruct (String.eqb a s) eqn:E;
               [apply String.eqb_eq in E; intros X; injection X as <-;
                now rewrite <- E |]
           end.
    discriminate.
  - intros ->. destruct t; reflexivity.
Qed.

(** X7: the constructor of the enumeration returns a member given to it,
    finds each member by its value, finds nothing for any other string,
    and no two members share a value. *)
Theorem PredicateType_lookup :
  (forall t, PredicateType_call (VEnum t) = Ok t)
  /\ (forall s t, PredicateType_call (VAtom (AStr s)) = Ok t
                  <-> s = PredicateType_value t)
  /\ (forall s, (forall t, s <> PredicateType_value t) ->
        PredicateType_call (VAtom (AStr s))
        = Raise (not_a_member (VAtom (AStr s))))
  /\ (forall t u, PredicateType_value t = PredicateType_value u -> t = u).
Proof.
  split; [reflexivity|]. split; [exact PredicateType_call_value|]. split.
  - intros s Hs.
    destruct (PredicateType_call (VAtom (AStr s))) as [t|e] eqn:E.
    + apply PredicateType_call_value in E. now apply Hs in E.
    + unfold PredicateType_call in E.
      destruct (List.find _ _); [discriminate | now injection E as <-].
  - intros t u H. destruct t, u; try reflexivity; discriminate.
Qed.

Lemma from_dict_unfold (data : gmap string value) :
  from_dict data =
  pred_type ← PredicateType_call (tag_of data);
  subj_v ← getitem data "subject";
  pred_v ← getitem data "predicate";
  obj_v ← getitem data "obj";
  s ← as_str "subj" subj_v;
  r ← as_str "pred" pred_v;
  o ← as_atom "obj" obj_v;
  c ← as_float "confidence" (get data "confidence" (VFloat (Finite 1)));
  src ← as_optional_str "source" (get data "source" (VAtom ANone));
  md ← as_dict "metadata" (get data "metadata" (VDict ∅));
  Predicate_init s r o c src (Some pred_type) md.
Proof. reflexivity. Qed.

(** What a record that is read holds. *)
Lemma from_dict_Ok_inv (data : gmap string value) (p : Predicate) :
  from_dict data = Ok p ->
  exists t s r o c src md,
    PredicateType_call (tag_of data) = Ok t
    /\ data !! "subject" = Some (VAtom (AStr s))
    /\ data !! "predicate" = Some (VAtom (AStr r))
    /\ data !! "obj" = Some (VAtom o)
    /\ as_float "confidence" (get data "confidence" (VFloat (Finite 1)))
       = Ok c
    /\ as_optional_str "source" (get data "source" (VAtom ANone)) = Ok src
    /\ as_dict "metadata" (get data "metadata" (VDict ∅)) = Ok md
    /\ Predicate_init s r o c src (Some t) md = Ok p.
Proof.
  rewrite from_dict_unfold. unfold getitem.
  destruct (PredicateType_call (tag_of data)) as [t|] eqn:Et;
    [|discriminate].
  destruct (data !! "subject") as [sv|]; [|discriminate].
  destruct (data !! "predicate") as [rv|]; [|discriminate].
  destruct (data !! "obj") as [ov|]; [|discriminate].
  cbn [mbind result_bind].
  destruct sv as [[| | |s]| | |]; try discriminate.
  destruct rv as [[| | |r]| | |]; try discriminate.
  destruct ov as [o| | |]; try discriminate.
  cbn [as_str as_atom mbind result_bind].
  destruct (as_float _ _) as [c|] eqn:Ec; [|discriminate].
  destruct (as_optional_str _ _) as [src|] eqn:Es; [|discriminate].
  destruct (as_dict _ _) as [md|] eqn:Em; [|discriminate].
  cbn [mbind result_bind]. intros H.
  exists t, s, r, o, c, src, md. repeat split; assumption.
Qed.

(** X8: an instance that [from_dict] returns is valid, carries a category,
    and holds the trimmed subject, relation and object of the record's
    keys [subject], [predicate] and [obj]. *)
Theorem from_dict_result (data : gmap string value) (p : Predicate) :
  from_dict data = Ok p ->
  valid p
  /\ (exists t, predicate_type p = Some t)
  /\ (exists s, data !! "subject" = Some (VAtom (AStr s))
                /\ subj p = PyStr.strip s)
  /\ (exists r, data !! "predicate" = Some (VAtom (AStr r))
                /\ pred p = PyStr.strip r)
  /\ (exists o, data !! "obj" = Some (VAtom o) /\ obj p = trim_obj o).
Proof.
  intros H. apply from_dict_Ok_inv in H
    as (t & s & r & o & c & src & md & Ht & Hs & Hr & Ho & _ & _ & _ & H).
  split; [now exists s, r, o, c, src, (Some t), md|].
  apply init_Ok_fields in H as [-> _].
  cbn [subj pred obj predicate_type].
  split; [now exists t|]. split; [now exists s|].
  split; [now exists r | now exists o].
Qed.

Lemma from_dict_result_witness :
  exists t, predicate_type
              (mkPredicate "s" "r" (AStr "o") (Finite 1) None
                           (Some ASSERTION) ∅) = Some t.
Proof.
  refine (proj1 (proj2 (from_dict_result
    (<["type" := VAtom (AStr "assertion")]> record_obj_key) _ _))).
  vm_compute. reflexivity.
Defined.

Lemma PredicateType_call_error (v : value) (e : exn) :
  PredicateType_call v = Raise e -> e = not_a_member v.
Proof.
  unfold PredicateType_call.
  repeat match goal with
         | |- context [match ?x with _ => _ end] => destruct x
         end; intros H; try discriminate; now injection H as <-.
Qed.

Lemma init_not_KeyError s r o c src t md k :
  Predicate_init s r o c src t md <> Raise (KeyError k).
Proof.
  destruct (Predicate_init_cases s r o c src t md)
    as [[_ E] | [[_ [_ E]] | [_ [_ E]]]]; rewrite E; discriminate.
Qed.

(** X9: the order of the errors of [from_dict].  A tag that cannot be
    converted raises its [ValueError] whatever else the record holds.
    A [KeyError] names the first of [subject], [predicate] and [obj] that
    is missing, and is raised only when the tag converts. *)
Theorem from_dict_error_order (data : gmap string value) :
  (forall e, PredicateType_call (tag_of data) = Raise e ->
     from_dict data = Raise (not_a_member (tag_of data)))
  /\ (forall k,
        from_dict data = Raise (KeyError k)
        <-> (exists t, PredicateType_call (tag_of data) = Ok t)
            /\ ((k = "subject" /\ data !! "subject" = None)
                \/ (k = "predicate" /\ data !! "subject" <> None
                    /\ data !! "predicate" = None)
                \/ (k = "obj" /\ data !! "subject" <> None
                    /\ data !! "predicate" <> None
                    /\ data !! "obj" = None))).
Proof.
  split.
  - intros e He. rewrite from_dict_unfold, He. cbn [mbind result_bind].
    now rewrite (PredicateType_call_error _ _ He).
  - intros k. rewrite from_dict_unfold. unfold getitem.
    destruct (PredicateType_call (tag_of data)) as [t|e] eqn:Et.
    2:{ cbn [mbind result_bind]. apply PredicateType_call_error in Et.
        subst e. split; [discriminate | intros [[t Ht] _]; discriminate]. }
    cbn [mbind result_bind].
    destruct (data !! "subject") as [sv|] eqn:Es.
    2:{ cbn [mbind result_bind]. split.
        - intros H. injection H as <-. split; [now exists t | tauto].
        - intros [_ [[-> _] | [[_ [H _]] | [_ [H _]]]]];
            [reflexivity | now contradiction H | now contradiction H]. }
    destruct (data !! "predicate") as [rv|] eqn:Er.
    2:{ cbn [mbind result_bind]. split.
        - intros H. injection H as <-. split; [now exists t|].
          right; left. repeat split; congruence.
        - intros [_ [[_ H] | [[-> _] | [_ [_ [H _]]]]]];
            [discriminate | reflexivity | now contradiction H]. }
    destruct (data !! "obj") as [ov|] eqn:Eo.
    2:{ cbn [mbind result_bind]. split.
        - intros H. injection H as <-. split; [now exists t|].
          right; right. repeat split; congruence.
        - intros [_ [[_ H] | [[_ [_ H]] | [-> _]]]];
            [discriminate | discriminate | reflexivity]. }
    cbn [mbind result_bind]. split.
    + intros H. exfalso.
      destruct (as_str "subj" sv) as [s|] eqn:E1;
        [|unfold as_str in E1;
          repeat match type of E1 with
                 | match ?x with _ => _ end = _ => destruct x
                 end; cbn in H; congruence].
      destruct (as_str "pred" rv) as [r|] eqn:E2;
        [|unfold as_str in E2;
          repeat match type of E2 with
                 | match ?x with _ => _ end = _ => destruct x
                 end; cbn in H; congruence].
      destruct (as_atom "obj" ov) as [o|] eqn:E3;
        [|unfold as_atom in E3; destruct ov; cbn in H; congruence].
      destruct (as_float "confidence" _) as [c|] eqn:E4;
        [|unfold as_float in E4;
          repeat match type of E4 with
                 | match ?x with _ => _ end = _ => destruct x
                 end; cbn in H; congruence].
      destruct (as_optional_str "source" _) as [src|] eqn:E5;
        [|unfold as_optional_str in E5;
          repeat match type of E5 with
                 | match ?x with _ => _ end = _ => destruct x
                 end; cbn in H; congruence].
      destruct (as_dict "metadata" _) as [md|] eqn:E6;
        [|unfold as_dict in E6;
          repeat match type of E6 with
                 | match ?x with _ => _ end = _ => destruct x
                 end; cbn in H; congruence].
      cbn [mbind result_bind] in H. now apply init_not_KeyError in H.
    + intros [_ [[_ H] | [[_ [_ H]] | [_ [_ [_ H]]]]]]; discriminate.
Qed.

(** X10: a record whose [type] is absent or falsy (None, False, 0, the
    empty string, an empty mapping) is rejected with the error for [None],
    whatever else it holds. *)
Theorem from_dict_falsy_type (data : gmap string value) :
  truthy (get data "type" (VAtom ANone)) = false ->
  from_dict data = Raise (not_a_member (VAtom ANone)).
Proof.
  intros H. rewrite from_dict_unfold. unfold tag_of. now rewrite H.
Qed.

Lemma from_dict_falsy_type_witness :
  from_dict (<["type" := VAtom (AStr EmptyString)]> record_obj_key)
  = Raise (not_a_member (VAtom ANone)).
Proof. apply from_dict_falsy_type. vm_compute. reflexivity. Defined.

Lemma tag_of_insert (data : gmap string value) (v : value) :
  truthy v = true -> tag_of (<["type" := v]> data) = v.
Proof.
  intros H. unfold tag_of, get. rewrite lookup_insert_eq. now rewrite H.
Qed.

(** X11: the tag of a record may be a member or the value of a member:
    both records are read alike. *)
Theorem from_dict_member_or_value (data : gmap string value)
    (t : PredicateType) :
  from_dict (<["type" := VAtom (AStr (PredicateType_value t))]> data)
  = from_dict (<["type" := VEnum t]> data).
Proof.
  rewrite !from_dict_unfold.
  rewrite !tag_of_insert by (destruct t; reflexivity).
  replace (PredicateType_call (VAtom (AStr (PredicateType_value t))))
    with (Ok t) by (destruct t; reflexivity).
  cbn [PredicateType_call]. unfold getitem, get.
  rewrite !lookup_insert_ne by discriminate. reflexivity.
Qed.

Lemma with_obj_key_lookups (p : Predicate) :
  with_obj_key p !! "type" = to_dict p !! "type"
  /\ with_obj_key p !! "subject" = to_dict p !! "subject"
  /\ with_obj_key p !! "predicate" = to_dict p !! "predicate"
  /\ with_obj_key p !! "obj" = Some (VAtom (obj p))
  /\ with_obj_key p !! "confidence" = to_dict p !! "confidence"
  /\ with_obj_key p !! "source" = to_dict p !! "source"
  /\ with_obj_key p !! "metadata" = to_dict p !! "metadata".
Proof.
  unfold with_obj_key. rewrite lookup_insert_eq.
  rewrite !lookup_insert_ne by discriminate. repeat split.
Qed.

(** X12: once the object is stored under the key that [from_dict] reads,
    [from_dict] undoes [to_dict] exactly on the valid instances that
    carry a category. *)
Theorem from_dict_inverts_to_dict_on_obj_key (p : Predicate) :
  from_dict (with_obj_key p) = Ok p
  <-> valid p /\ exists t, predicate_type p = Some t.
Proof.
  split.
  - intros H. apply from_dict_Ok_inv in H
      as (t & s & r & o & c & src & md & _ & _ & _ & _ & _ & _ & _ & H).
    split; [now exists s, r, o, c, src, (Some t), md|].
    apply init_Ok_fields in H as [-> _]. now exists t.
  - intros [Hv [t Ht]]. apply valid_well_formed in Hv.
    rewrite from_dict_unfold. unfold tag_of, getitem, get.
    destruct (with_obj_key_lookups p) as (-> & -> & -> & -> & -> & -> & ->).
    rewrite to_dict_type, to_dict_subject, to_dict_predicate,
      to_dict_confidence, to_dict_source, to_dict_metadata, Ht.
    cbn [truthy PredicateType_call mbind result_bind as_str as_atom
         as_float as_dict].
    replace (as_optional_str "source"
               match source p with
               | Some s => VAtom (AStr s)
               | None => VAtom ANone
               end) with (Ok (A:=option string) (source p))
      by (destruct (source p); reflexivity).
    cbn [mbind result_bind]. rewrite <- Ht. now apply init_of_well_formed.
Qed.

(** ** Matching, continued *)

Lemma append_empty_r (s : string) : s ++ EmptyString = s.
Proof.
  induction s as [|c s IH]; [reflexivity|].
  change (String c (s ++ EmptyString) = String c s). now rewrite IH.
Qed.

Lemma contains_refl (s : string) : PyStr.contains s s = true.
Proof.
  apply contains_app. exists EmptyString, EmptyString.
  change (s = s ++ EmptyString). now rewrite append_empty_r.
Qed.

(** [_fuzzy_match] without the tests that never decide: the equality of
    the normal forms is an occurrence, and the word sets are not empty
    when neither normal form occurs in the other. *)
Lemma fuzzy_match_short (s1 s2 : string) (threshold : pyfloat) :
  _fuzzy_match s1 s2 threshold
  = PyStr.contains (normalize s1) (normalize s2)
    || PyStr.contains (normalize s2) (normalize s1)
    || float_le threshold
         (Finite (jaccard (token_set (normalize s1))
                          (token_set (normalize s2)))).
Proof.
  rewrite fuzzy_match_unfold. cbv zeta.
  destruct (String.eqb (normalize s1) (normalize s2)) eqn:E.
  { apply String.eqb_eq in E. rewrite E, contains_refl. reflexivity. }
  destruct (PyStr.contains (normalize s1) (normalize s2)
            || PyStr.contains (normalize s2) (normalize s1)) eqn:C;
    [reflexivity|].
  destruct (empty_word_set_unreachable s1 s2 C) as [-> ->]. reflexivity.
Qed.

Lemma fuzzy_match_refl (s : string) (threshold : pyfloat) :
  _fuzzy_match s s threshold = true.
Proof. now rewrite fuzzy_match_short, contains_refl. Qed.

Lemma jaccard_bounds (A B : gset string) :
  (0 <= jaccard A B)%Q /\ (jaccard A B <= 1)%Q.
Proof.
  unfold jaccard.
  assert (Hle : (size (A ∩ B) <= size (A ∪ B))%nat)
    by (apply subseteq_size; etrans;
        [apply intersection_subseteq_l | apply union_subseteq_l]).
  set (i := size (A ∩ B)) in *. set (u := size (A ∪ B)) in *.
  destruct u as [|u].
  - replace i with 0%nat by lia. cbn. split; discriminate.
  - assert (Hu : (0 < inject_Z (Z.of_nat (S u)))%Q).
    { change 0%Q with (inject_Z 0).
      rewrite <- Zlt_Qlt. lia. }
    split.
    + apply Qle_shift_div_l; [exact Hu|]. rewrite Qmult_0_l.
      change 0%Q with (inject_Z 0).
      rewrite <- Zle_Qle. lia.
    + apply Qle_shift_div_r; [exact Hu|]. rewrite Qmult_1_l.
      rewrite <- Zle_Qle. lia.
Qed.

Lemma jaccard_same (A : gset string) : A <> ∅ -> (jaccard A A == 1)%Q.
Proof.
  intros HA. unfold jaccard.
  rewrite intersection_idemp_L, union_idemp_L.
  apply Qmult_inv_r. intros H.
  assert (Z.of_nat (size A) = 0%Z)
    by (unfold Qeq in H; cbn in H; lia).
  apply HA. apply leibniz_equiv, size_empty_iff. lia.
Qed.

Lemma jaccard_disjoint (A B : gset string) :
  A ∩ B = ∅ -> (jaccard A B == 0)%Q.
Proof.
  intros H. unfold jaccard. rewrite H, size_empty. cbn.
  unfold Qdiv. now rewrite Qmult_0_l.
Qed.

Lemma float_le_trans (a b c : pyfloat) :
  float_le a b = true -> float_le b c = true -> float_le a c = true.
Proof.
  destruct a, b, c; cbn [float_le]; try discriminate; try reflexivity.
  rewrite !Qle_bool_iff. apply Qle_trans.
Qed.


(** X14: an exact match is a fuzzy match when the two objects print alike,
    and not in general: the objects [1] and [True] are equal, and their
    texts share no word. *)
Theorem exact_match_and_fuzzy_match :
  (forall a b, matches a b false = true -> str (obj a) = str (obj b) ->
     matches a b true = true)
  /\ exists a b,
       Predicate3 "s" "r" (AInt 1) = Ok a
       /\ Predicate3 "s" "r" (ABool true) = Ok b
       /\ matches a b false = true
       /\ matches a b true = false.
Proof.
  split.
  - intros a b H Ho. apply triple_eq_true in H as (Hs & Hr & _).
    cbn [matches]. rewrite Hs, Hr, Ho.
    now rewrite !fuzzy_match_refl, String.eqb_refl.
  - do 2 eexists.
    split; [vm_compute; reflexivity|].
    split; [vm_compute; reflexivity|].
    split; vm_compute; reflexivity.
Qed.

(** X15: two instances that match, exactly or fuzzily, have the same
    relation, so [is_negation] answers the same for both. *)
Theorem matching_preserves_negation (a b : Predicate) (fuzzy : bool) :
  matches a b fuzzy = true -> pred a = pred b /\ is_negation a = is_negation b.
Proof.
  intros H. assert (E : pred a = pred b).
  { destruct fuzzy; cbn [matches] in H.
    - apply andb_true_iff in H as [H _].
      apply andb_true_iff in H as [_ H]. now apply String.eqb_eq.
    - now apply triple_eq_true in H as (_ & Hr & _). }
  split; [exact E|]. unfold is_negation. now rewrite E.
Qed.

Lemma matching_preserves_negation_witness :
  is_negation (mkPredicate "GPL License" "cannot" (AStr "close_source")
                           (Finite 1) None None ∅)
  = is_negation (mkPredicate "GPL" "cannot" (AStr "close source")
                             (Finite 1) None None ∅).
Proof.
  refine (proj2 (matching_preserves_negation _ _ true _)).
  vm_compute. reflexivity.
Defined.

(** X16: a lower threshold matches more: a pair that matches at a
    threshold matches at every threshold below it. *)
Theorem fuzzy_match_threshold_monotone (s1 s2 : string) (t1 t2 : pyfloat) :
  float_le t1 t2 = true ->
  _fuzzy_match s1 s2 t2 = true ->
  _fuzzy_match s1 s2 t1 = true.
Proof.
  intros Ht. rewrite !fuzzy_match_short, !orb_true_iff.
  intros [H|H]; [now left | right].
  eapply float_le_trans; eassumption.
Qed.

Lemma fuzzy_match_threshold_monotone_witness :
  _fuzzy_match "a b c" "b c d" (Finite (1 # 4)) = true.
Proof.
  apply (fuzzy_match_threshold_monotone _ _ _ (Finite (1 # 2)));
    vm_compute; reflexivity.
Defined.

(** X17: the similarity lies between 0 and 1.  So at a threshold of 0 or
    less every pair of strings matches, and at a threshold above 1 a pair
    matches only when one normal form occurs in the other. *)
Theorem fuzzy_match_threshold_extremes :
  (forall A B, (0 <= jaccard A B)%Q /\ (jaccard A B <= 1)%Q)
  /\ (forall s1 s2 t, (t <= 0)%Q -> _fuzzy_match s1 s2 (Finite t) = true)
  /\ (forall s1 s2 t, (1 < t)%Q ->
        _fuzzy_match s1 s2 (Finite t)
        = PyStr.contains (normalize s1) (normalize s2)
          || PyStr.contains (normalize s2) (normalize s1)).
Proof.
  split; [exact jaccard_bounds|]. split.
  - intros s1 s2 t Ht. rewrite fuzzy_match_short.
    apply orb_true_iff. right. cbn [float_le]. apply Qle_bool_iff.
    eapply Qle_trans; [exact Ht | apply jaccard_bounds].
  - intros s1 s2 t Ht. rewrite fuzzy_match_short.
    replace (float_le (Finite t) _) with false; [now rewrite orb_false_r|].
    symmetry. cbn [float_le]. apply not_true_is_false.
    rewrite Qle_bool_iff. intros H.
    apply (Qlt_irrefl 1). eapply Qlt_le_trans; [exact Ht|].
    eapply Qle_trans; [exact H | apply jaccard_bounds].
Qed.

(** X18: two strings whose normal forms have the same words, in any order
    and with any repetition, match at every threshold up to 1. *)
Theorem same_words_match (s1 s2 : string) (t : Q) :
  token_set (normalize s1) = token_set (normalize s2) ->
  (t <= 1)%Q ->
  _fuzzy_match s1 s2 (Finite t) = true.
Proof.
  intros Hw Ht. rewrite fuzzy_match_short.
  destruct (PyStr.contains (normalize s1) (normalize s2)
            || PyStr.contains (normalize s2) (normalize s1)) eqn:C;
    [reflexivity|].
  destruct (empty_word_set_unreachable s1 s2 C) as [G _].
  apply orb_false_iff in G as [G _]. apply bool_decide_eq_false in G.
  cbn [orb float_le]. apply Qle_bool_iff. rewrite <- Hw.
  rewrite (jaccard_same _ G). exact Ht.
Qed.

Lemma same_words_match_witness :
  _fuzzy_match "commercial use" "Use_Commercial use" (Finite (1 # 2)) = true.
Proof.
  apply same_words_match; [vm_compute; reflexivity | discriminate].
Defined.

(** X19: two strings match at a positive threshold only when they share a
    word or one normal form occurs in the other. *)
Theorem no_shared_word_no_match (s1 s2 : string) (t : Q) :
  (0 < t)%Q ->
  token_set (normalize s1) ∩ token_set (normalize s2) = ∅ ->
  _fuzzy_match s1 s2 (Finite t)
  = PyStr.contains (normalize s1) (normalize s2)
    || PyStr.contains (normalize s2) (normalize s1).
Proof.
  intros Ht Hd. rewrite fuzzy_match_short.
  replace (float_le (Finite t) _) with false; [now rewrite orb_false_r|].
  symmetry. cbn [float_le]. apply not_true_is_false.
  rewrite Qle_bool_iff, (jaccard_disjoint _ _ Hd). intros H.
  apply (Qlt_irrefl 0). eapply Qlt_le_trans; eassumption.
Qed.

Lemma no_shared_word_no_match_witness :
  _fuzzy_match "A" "B" (Finite (1 # 2)) = false.
Proof.
  rewrite (no_shared_word_no_match "A" "B" (1 # 2));
    [reflexivity | reflexivity | vm_compute; reflexivity].
Defined.

(** ** The normal form *)

Section Normalization.

Import PyStr.

Local Abbreviation R := (replace "_" " ").

Lemma append_cons (c : ascii) (x y : string) :
  String c x ++ y = String c (x ++ y).
Proof. reflexivity. Qed.

Lemma append_assoc (x y z : string) : (x ++ y) ++ z = x ++ (y ++ z).
Proof.
  induction x as [|c x IH]; [reflexivity|].
  now rewrite !append_cons, IH.
Qed.

Lemma lower_char_space (c : ascii) : is_space (lower_char c) = is_space c.
Proof. destruct c as [[] [] [] [] [] [] [] []]; reflexivity. Qed.

Lemma lower_char_idem (c : ascii) : lower_char (lower_char c) = lower_char c.
Proof. destruct c as [[] [] [] [] [] [] [] []]; reflexivity. Qed.

Lemma lower_char_replace (c : ascii) :
  lower_char (if Ascii.eqb c "_" then " "%char else c)
  = if Ascii.eqb (lower_char c) "_" then " "%char else lower_char c.
Proof. destruct c as [[] [] [] [] [] [] [] []]; reflexivity. Qed.

Lemma space_not_underscore (c : ascii) :
  is_space c = true -> Ascii.eqb c "_" = false.
Proof. destruct c as [[] [] [] [] [] [] [] []]; (reflexivity || discriminate). Qed.

Lemma lower_idem (s : string) : lower (lower s) = lower s.
Proof.
  induction s as [|c s IH]; [reflexivity|].
  cbn [lower]. now rewrite lower_char_idem, IH.
Qed.

Lemma lower_lstrip (s : string) : lower (lstrip s) = lstrip (lower s).
Proof.
  induction s as [|c s IH]; [reflexivity|].
  cbn [lower lstrip]. rewrite lower_char_space.
  destruct (is_space c); [exact IH | reflexivity].
Qed.

Lemma lower_rstrip (s : string) : lower (rstrip s) = rstrip (lower s).
Proof.
  induction s as [|c s IH]; [reflexivity|].
  cbn [lower rstrip]. rewrite <- IH, lower_char_space.
  destruct (rstrip s); cbn [lower]; [destruct (is_space c)|]; reflexivity.
Qed.

Lemma lower_strip (s : string) : lower (strip s) = strip (lower s).
Proof. unfold strip. now rewrite lower_lstrip, lower_rstrip. Qed.

Lemma lower_replace (s : string) : lower (R s) = R (lower s).
Proof.
  induction s as [|c s IH]; [reflexivity|].
  cbn [lower replace]. now rewrite lower_char_replace, IH.
Qed.

Lemma replace_idem (s : string) : R (R s) = R s.
Proof.
  induction s as [|c s IH]; [reflexivity|].
  cbn [replace]. rewrite IH. destruct (Ascii.eqb c "_") eqn:E; [reflexivity|].
  now rewrite E.
Qed.

(** One step of [split_from]. *)
Lemma split_from_cons (w : option string) (c : ascii) (s : string) :
  split_from w (String c s)
  = (emitted w c ++ split_from (continued w c) s)%list.
Proof.
  cbn [split_from]. unfold emitted, continued.
  destruct (is_space c); [destruct w|]; reflexivity.
Qed.

Lemma replaced_space (c : ascii) :
  is_space c = true -> (if Ascii.eqb c "_" then " "%char else c) = c.
Proof. intros H. now rewrite (space_not_underscore c H). Qed.

(** [split] does not see whitespace at the ends, before or after the
    replacement of underscores. *)
Lemma split_replace_lstrip (s : string) :
  split_from None (R (lstrip s)) = split_from None (R s).
Proof.
  induction s as [|c s IH]; [reflexivity|].
  cbn [lstrip]. destruct (is_space c) eqn:Hc; [|reflexivity].
  rewrite IH. cbn [replace]. rewrite (replaced_space c Hc).
  cbn [split_from]. now rewrite Hc.
Qed.

Lemma split_replace_rstrip (s : string) (w : option string) :
  split_from w (R (rstrip s)) = split_from w (R s).
Proof.
  revert w. induction s as [|c s IH]; intros w; [reflexivity|].
  cbn [rstrip]. destruct (rstrip s) as [|d r] eqn:E.
  - assert (F : forall v, split_from v (R s)
                          = match v with Some x => [x] | None => [] end)
      by (intros v; now rewrite <- IH).
    destruct (is_space c) eqn:Hc.
    + cbn [replace]. rewrite (replaced_space c Hc). cbn [split_from].
      rewrite Hc, !F. now destruct w.
    + cbn [replace]. rewrite !split_from_cons, F. cbn [split_from].
      unfold continued. now destruct (is_space _).
  - set (c' := if Ascii.eqb c "_" then " "%char else c).
    change (R (String c (String d r))) with (String c' (R (String d r))).
    change (R (String c s)) with (String c' (R s)).
    rewrite (split_from_cons w c' (R (String d r))).
    rewrite (split_from_cons w c' (R s)).
    f_equal. apply IH.
Qed.

Lemma split_replace_strip (s : string) : split (R (strip s)) = split (R s).
Proof.
  unfold split, strip. now rewrite split_replace_lstrip, split_replace_rstrip.
Qed.

Lemma normalize_forms (s : string) :
  normalize (lower s) = normalize s
  /\ normalize (strip s) = normalize s
  /\ normalize (R s) = normalize s.
Proof.
  unfold normalize. split; [|split].
  - now rewrite lower_idem.
  - now rewrite lower_strip, strip_idem.
  - rewrite lower_replace, !split_replace_strip. now rewrite replace_idem.
Qed.

(** X20: the normal form does not depend on letter case, on whitespace
    around the string, or on the choice between underscores and spaces;
    so [_fuzzy_match] answers the same when an operand is put in lower
    case, trimmed, or has its underscores turned into spaces. *)
Theorem normalize_insensitive (s s2 : string) (t : pyfloat) :
  (normalize (lower s) = normalize s
   /\ normalize (strip s) = normalize s
   /\ normalize (R s) = normalize s)
  /\ _fuzzy_match (lower s) s2 t = _fuzzy_match s s2 t
  /\ _fuzzy_match (strip s) s2 t = _fuzzy_match s s2 t
  /\ _fuzzy_match (R s) s2 t = _fuzzy_match s s2 t.
Proof.
  destruct (normalize_forms s) as (H1 & H2 & H3).
  split; [now repeat split|].
  rewrite !fuzzy_match_unfold. cbv zeta. now rewrite H1, H2, H3.
Qed.

Lemma all_chars_impl (P Q : ascii -> Prop) (s : string) :
  (forall c, P c -> Q c) -> all_chars P s -> all_chars Q s.
Proof.
  intros H. induction s as [|c s IH]; [exact id|].
  cbn [all_chars]. intros [Hc Hs]. split; auto.
Qed.

Lemma all_chars_app (P : ascii -> Prop) (x y : string) :
  all_chars P (x ++ y) <-> all_chars P x /\ all_chars P y.
Proof.
  induction x as [|c x IH]; [cbn [all_chars]; change (EmptyString ++ y) with y; tauto|].
  rewrite append_cons. cbn [all_chars]. rewrite IH. tauto.
Qed.

Lemma all_chars_lstrip (P : ascii -> Prop) (s : string) :
  all_chars P s -> all_chars P (lstrip s).
Proof.
  induction s as [|c s IH]; [exact id|].
  cbn [lstrip]. destruct (is_space c); [|exact id].
  intros [_ H]. now apply IH.
Qed.

Lemma all_chars_rstrip (P : ascii -> Prop) (s : string) :
  all_chars P s -> all_chars P (rstrip s).
Proof.
  induction s as [|c s IH]; [exact id|].
  intros [Hc Hs]. cbn [rstrip]. specialize (IH Hs).
  destruct (rstrip s); [destruct (is_space c)|]; cbn [all_chars] in *; tauto.
Qed.

Lemma all_chars_lower (s : string) :
  all_chars (fun c => lower_char c = c) (lower s).
Proof.
  induction s as [|c s IH]; [exact I|].
  cbn [lower all_chars]. split; [apply lower_char_idem | exact IH].
Qed.

Lemma all_chars_replace (s : string) :
  all_chars (fun c => lower_char c = c) s -> all_chars plain_char (R s).
Proof.
  induction s as [|c s IH]; [exact id|].
  intros [Hc Hs]. cbn [replace all_chars]. split; [|now apply IH].
  unfold plain_char. destruct (Ascii.eqb c "_") eqn:E; [split; reflexivity|].
  now split.
Qed.

Lemma lower_fixed (s : string) :
  all_chars (fun c => lower_char c = c) s -> lower s = s.
Proof.
  induction s as [|c s IH]; [reflexivity|].
  intros [Hc Hs]. cbn [lower]. now rewrite Hc, IH.
Qed.

Lemma replace_fixed (s : string) :
  all_chars (fun c => Ascii.eqb c "_" = false) s -> R s = s.
Proof.
  induction s as [|c s IH]; [reflexivity|].
  intros [Hc Hs]. cbn [replace]. now rewrite Hc, IH.
Qed.

(** The words [split] returns are words, and their characters are
    characters of the string. *)
Lemma split_from_is_word (w : option string) (s : string) :
  (forall x, w = Some x -> is_word x) -> Forall is_word (split_from w s).
Proof.
  revert w. induction s as [|c s IH]; intros w Hw.
  - destruct w; cbn [split_from]; auto.
  - cbn [split_from]. destruct (is_space c) eqn:Hc.
    + destruct w as [x|].
      * constructor; [now apply Hw | apply IH; discriminate].
      * apply IH; discriminate.
    + apply IH. intros x Hx. injection Hx as <-. destruct w as [y|].
      * destruct (Hw y eq_refl) as [Hy1 Hy2]. split.
        -- destruct y; [now contradiction Hy1 | discriminate].
        -- apply all_chars_app. cbn [all_chars]. tauto.
      * split; [discriminate | cbn [all_chars]; tauto].
Qed.

Lemma split_from_all_chars (P : ascii -> Prop) (w : option string)
    (s : string) :
  all_chars P s -> (forall x, w = Some x -> all_chars P x) ->
  Forall (all_chars P) (split_from w s).
Proof.
  revert w. induction s as [|c s IH]; intros w Hs Hw.
  - destruct w; cbn [split_from]; auto.
  - destruct Hs as [Hc Hs]. cbn [split_from]. destruct (is_space c).
    + destruct w as [x|].
      * constructor; [now apply Hw | apply IH; [exact Hs | discriminate]].
      * apply IH; [exact Hs | discriminate].
    + apply IH; [exact Hs|]. intros x Hx. injection Hx as <-.
      destruct w as [y|]; [|cbn [all_chars]; tauto].
      apply all_chars_app. cbn [all_chars]. split; [now apply Hw | tauto].
Qed.

Lemma join_all_chars (P : ascii -> Prop) (sep : string)
    (ws : list string) :
  all_chars P sep -> Forall (all_chars P) ws -> all_chars P (join sep ws).
Proof.
  intros Hsep. unfold join. induction 1 as [|w ws Hw Hws IH]; [exact I|].
  cbn [String.concat]. destruct ws as [|v vs]; [exact Hw|].
  apply all_chars_app. split; [exact Hw|].
  apply all_chars_app. split; [exact Hsep | exact IH].
Qed.

(** Reading a word. *)
Lemma split_from_word (acc x rest : string) :
  all_chars (fun c => is_space c = false) x ->
  split_from (Some acc) (x ++ rest) = split_from (Some (acc ++ x)) rest.
Proof.
  revert acc. induction x as [|c x IH]; intros acc Hx.
  - change (EmptyString ++ rest) with rest. now rewrite append_empty_r.
  - destruct Hx as [Hc Hx]. rewrite append_cons. cbn [split_from].
    rewrite Hc, (IH _ Hx), append_assoc. reflexivity.
Qed.

Lemma split_from_None_word (x rest : string) :
  is_word x -> split_from None (x ++ rest) = split_from (Some x) rest.
Proof.
  intros [Hne Hx]. destruct x as [|c x]; [now contradiction Hne|].
  destruct Hx as [Hc Hx]. rewrite append_cons. cbn [split_from].
  rewrite Hc. now rewrite (split_from_word _ _ _ Hx).
Qed.

(** Splitting undoes joining words with one space. *)
Lemma split_join (ws : list string) :
  Forall is_word ws -> split (join " " ws) = ws.
Proof.
  unfold split, join. induction 1 as [|w ws Hw Hws IH]; [reflexivity|].
  cbn [String.concat]. destruct ws as [|v vs].
  - replace (split_from None w) with (split_from None (w ++ EmptyString))
      by now rewrite append_empty_r.
    now rewrite (split_from_None_word _ _ Hw).
  - rewrite (split_from_None_word _ _ Hw).
    change (" " ++ String.concat " " (v :: vs))
      with (String " " (String.concat " " (v :: vs))).
    cbn [split_from]. change (is_space " ") with true. cbn iota.
    now rewrite IH.
Qed.

Lemma word_starts (w : string) : is_word w -> starts_nonspace w.
Proof. intros [Hne Hw]. destruct w; [now contradiction Hne | apply Hw]. Qed.

Lemma word_ends (w : string) : is_word w -> ends_nonspace w.
Proof.
  intros [Hne Hw]. induction w as [|c w IH]; [now contradiction Hne|].
  destruct Hw as [Hc Hw]. destruct w as [|d w]; [exact Hc|].
  apply IH; [discriminate | exact Hw].
Qed.

Lemma ends_nonspace_app (x y : string) :
  ends_nonspace y -> ends_nonspace (x ++ y).
Proof.
  intros Hy. induction x as [|c x IH]; [exact Hy|].
  rewrite append_cons. destruct (x ++ y) eqn:E; [contradiction | exact IH].
Qed.

Lemma join_ends (sep : string) (ws : list string) (w : string) :
  Forall is_word (w :: ws) -> ends_nonspace (join sep (w :: ws)).
Proof.
  unfold join. revert w. induction ws as [|v vs IH]; intros w Hw.
  - cbn [String.concat]. apply word_ends. now inversion Hw.
  - change (String.concat sep (w :: v :: vs))
      with (w ++ sep ++ String.concat sep (v :: vs)).
    do 2 apply ends_nonspace_app. apply IH. now inversion Hw.
Qed.

(** The words of the normal form, and their characters. *)
Lemma normalize_parts (s : string) :
  exists ws,
    normalize s = join " " ws
    /\ Forall is_word ws
    /\ Forall (all_chars plain_char) ws.
Proof.
  unfold normalize. set (x := R (strip (lower s))).
  exists (split x). split; [reflexivity|]. split.
  - apply split_from_is_word. discriminate.
  - apply split_from_all_chars; [|discriminate].
    apply all_chars_replace. unfold strip.
    apply all_chars_lstrip, all_chars_rstrip, all_chars_lower.
Qed.

Lemma normalize_idem (s : string) : normalize (normalize s) = normalize s.
Proof.
  destruct (normalize_parts s) as (ws & E & Hw & Hp). rewrite E.
  assert (Hn : all_chars plain_char (join " " ws))
    by (apply join_all_chars; [cbn; repeat split | exact Hp]).
  unfold normalize.
  rewrite lower_fixed
    by (eapply all_chars_impl; [|exact Hn]; now intros c [? _]).
  assert (Hs : strip (join " " ws) = join " " ws).
  { destruct ws as [|w ws]; [reflexivity|]. apply strip_fixed.
    - apply join_nonspace, word_starts. now inversion Hw.
    - now apply join_ends. }
  rewrite Hs.
  rewrite replace_fixed
    by (eapply all_chars_impl; [|exact Hn]; now intros c [_ ?]).
  now rewrite split_join.
Qed.


(** X22: normalizing a normal form changes nothing, so [_fuzzy_match]
    answers the same on two strings and on their normal forms. *)
Theorem normalize_idempotent (s1 s2 : string) (t : pyfloat) :
  normalize (normalize s1) = normalize s1
  /\ _fuzzy_match (normalize s1) (normalize s2) t = _fuzzy_match s1 s2 t.
Proof.
  split; [apply normalize_idem|].
  rewrite !fuzzy_match_unfold. cbv zeta. now rewrite !normalize_idem.
Qed.

End Normalization.

(** ** The text of an instance *)

(** X23: the text of an instance and equality do not determine each other.
    Instances with the same triple and the same confidence have the same
    text; two valid instances that are not equal can have the same text;
    and two valid instances that are equal can have different texts. *)
Theorem repr_and_equality (format_2f : pyfloat -> string) :
  (forall a b, to_triple a = to_triple b -> confidence a = confidence b ->
     __repr__ format_2f a = __repr__ format_2f b)
  /\ (exists a b,
        Predicate3 "a, b" "c" (AStr "d") = Ok a
        /\ Predicate3 "a" "b, c" (AStr "d") = Ok b
        /\ __eq__ a (OPredicate b) = false
        /\ __repr__ format_2f a = __repr__ format_2f b)
  /\ (exists a b,
        Predicate3 "s" "r" (AInt 1) = Ok a
        /\ Predicate3 "s" "r" (ABool true) = Ok b
        /\ __eq__ a (OPredicate b) = true
        /\ __repr__ format_2f a <> __repr__ format_2f b).
Proof.
  split; [|split].
  - intros a b Ht Hc. unfold to_triple in Ht. injection Ht as Hs Hr Ho.
    unfold __repr__. now rewrite Hs, Hr, Ho, Hc.
  - do 2 eexists.
    split; [vm_compute; reflexivity|].
    split; [vm_compute; reflexivity|].
    split; vm_compute; reflexivity.
  - do 2 eexists.
    split; [vm_compute; reflexivity|].
    split; [vm_compute; reflexivity|].
    split; [vm_compute; reflexivity|].
    vm_compute. discriminate.
Qed.

(** The text of the first instance of the [__main__] block, as its
    comment gives it. *)
Example main_repr (format_2f : pyfloat -> string) :
  (p ← p1; Ok (__repr__ format_2f p))
  = Ok "Predicate(MIT License, allows, commercial_use)".
Proof. vm_compute. reflexivity. Qed.
